(** * Blackjack simulator: a shallow embedding of [main.py]

    The Python program is a Monte Carlo simulator of Blackjack.  Its objects
    are embedded as follows.

    - Python [int] values are [Z]; list lengths and loop counters are [nat].
    - Python [float] values (bets, bankrolls, payoffs) are Rocq's primitive
      binary64 floats, which is the format of CPython's [float]; every
      arithmetic operation and comparison of the source on floats is the
      corresponding operation of [PrimFloat].
    - The mutable [Deck] shared by all rounds is threaded explicitly through
      the computations of a small state-and-exception monad.
    - [random.shuffle] is an interface ([RandomSource]): a state type, a
      function that permutes a list and steps the state, and the law that the
      output is a permutation of the input.
    - The unbounded [while] loops of [Game] carry a fuel argument; the
      hand-playing functions call them with a constant that is proved
      sufficient, so they never run out. *)

From Stdlib Require Import ZArith List Bool Lia Floats Permutation.
From Stdlib Require String Ascii.
Import ListNotations.

Local Open Scope Z_scope.

(** ** Cards *)

(** The thirteen strings of [Deck.RANKS], in the order of the source. *)
Inductive Rank : Set :=
| R2 | R3 | R4 | R5 | R6 | R7 | R8 | R9 | R10 | RJ | RQ | RK | RA.

Module Card.

Record t : Set := mk { rank : Rank }.

(** [self.rank == "A"] *)
Definition is_ace (c : t) : bool :=
  match rank c with RA => true | _ => false end.

(** [Card.value]: 11 for the ace, 10 for the faces, [int(self.rank)]
    otherwise. *)
Definition value (c : t) : Z :=
  match rank c with
  | RA => 11
  | RJ | RQ | RK => 10
  | R2 => 2 | R3 => 3 | R4 => 4 | R5 => 5 | R6 => 6
  | R7 => 7 | R8 => 8 | R9 => 9 | R10 => 10
  end.

End Card.

(** ** Hands *)

Module Hand.

Record t : Set := mk { cards : list Card.t }.

(** [Hand()] *)
Definition empty : t := mk [].

(** [self.cards.append(card)] *)
Definition add_card (h : t) (c : Card.t) : t := mk (cards h ++ [c]).

(** One iteration of the [for] loop of [Hand.value] on the accumulators
    [(total, aces)]. *)
Definition count_card (acc : Z * nat) (c : Card.t) : Z * nat :=
  let '(total, aces) := acc in
  (total + Card.value c, if Card.is_ace c then S aces else aces).

(** The whole [for] loop, from [total = 0] and [aces = 0]. *)
Definition scan (cs : list Card.t) : Z * nat :=
  fold_left count_card cs (0, 0%nat).

(** [while total > 21 and aces > 0: total -= 10; aces -= 1].  The loop
    decreases [aces], which is the structural argument. *)
Fixpoint reduce (total : Z) (aces : nat) : Z * nat :=
  match aces with
  | O => (total, O)
  | S aces' =>
      if total >? 21 then reduce (total - 10) aces' else (total, aces)
  end.

(** [Hand.value]: the pair [(total, is_soft)] with [is_soft = aces > 0]. *)
Definition value (h : t) : Z * bool :=
  let '(total, aces) := scan (cards h) in
  let '(total, aces) := reduce total aces in
  (total, negb (Nat.eqb aces 0)).

(** [len(self.cards) == 2 and self.value()[0] == 21] *)
Definition is_blackjack (h : t) : bool :=
  Nat.eqb (length (cards h)) 2 && (fst (value h) =? 21).

(** *** The valuation as the specification words it *)

(** Sum of the base values, every ace counted as 11. *)
Definition base_total (h : t) : Z :=
  fold_right Z.add 0 (map Card.value (cards h)).

(** Number of aces of the hand. *)
Definition ace_count (h : t) : nat :=
  length (filter Card.is_ace (cards h)).

(** The hand with every ace counted as 1: the least total it can have. *)
Definition hard_total (h : t) : Z :=
  base_total h - 10 * Z.of_nat (ace_count h).

(** One reinterpretation of an ace from 11 to 1.  A state is the running
    total with the number of aces still counted as 11; the step is enabled
    only while the total exceeds 21 and such an ace remains. *)
Inductive ace_step : Z * nat -> Z * nat -> Prop :=
| ace_step_intro (total : Z) (high : nat) :
    21 < total -> ace_step (total, S high) (total - 10, high).

(** Zero or more reinterpretations. *)
Inductive ace_steps : Z * nat -> Z * nat -> Prop :=
| ace_steps_done (st : Z * nat) : ace_steps st st
| ace_steps_more (st mid st' : Z * nat) :
    ace_step st mid -> ace_steps mid st' -> ace_steps st st'.

(** No further reinterpretation is possible. *)
Definition settled (st : Z * nat) : Prop :=
  fst st <= 21 \/ snd st = 0%nat.

End Hand.

(** ** Exceptions and effects *)

(** The exceptions the program can raise: [list.pop] on an empty list and an
    index into an empty list raise [IndexError]; [play_hand] raises
    [ValueError] with the offending bet; a division by a zero [int] or
    [float] raises [ZeroDivisionError]. *)
Inductive exn : Set :=
| IndexError
| ValueError (bet : float)
| ZeroDivisionError.

(** The result of running a computation on a store of type [St]: a value
    with the new store, an exception with the store as the exception left
    it, or the exhaustion of the fuel of a loop. *)
Inductive outcome (St A : Type) : Type :=
| Return (a : A) (st : St)
| Raised (e : exn) (st : St)
| OutOfFuel.

Arguments Return {St A} a st.
Arguments Raised {St A} e st.
Arguments OutOfFuel {St A}.

Definition M (St A : Type) : Type := St -> outcome St A.

Definition ret {St A : Type} (a : A) : M St A := fun st => Return a st.

Definition raise {St A : Type} (e : exn) : M St A := fun st => Raised e st.

Definition bind {St A B : Type} (m : M St A) (k : A -> M St B) : M St B :=
  fun st =>
    match m st with
    | Return a st' => k a st'
    | Raised e st' => Raised e st'
    | OutOfFuel => OutOfFuel
    end.

Declare Scope py_scope.
Delimit Scope py_scope with py.
Notation "x <- m ;; k" := (bind m (fun x => k))
  (at level 61, m at next level, right associativity) : py_scope.
Notation "' p <- m ;; k" := (bind m (fun p => k))
  (at level 61, p pattern, m at next level, right associativity) : py_scope.

(** ** The random source *)

(** [random.shuffle(x)] permutes the list in place and advances the state of
    the generator.  The generator is kept abstract: any state type with a
    function that returns a permutation of its argument. *)
Class RandomSource : Type := {
  rng : Type;
  shuffle : rng -> list Card.t -> list Card.t * rng;
  shuffle_permutes : forall (g : rng) (l : list Card.t),
      Permutation l (fst (shuffle g l))
}.

(** ** The shoe *)

(** [l * n] on Python lists. *)
Definition list_mul {A : Type} (l : list A) (n : nat) : list A :=
  concat (repeat l n).

(** [l.pop()]: the last element and the list without it; [None] stands for
    the [IndexError] of an empty list. *)
Definition pop {A : Type} (l : list A) : option (A * list A) :=
  match rev l with
  | [] => None
  | x :: r => Some (x, rev r)
  end.

Module Deck.

Definition RANKS : list Rank :=
  [R2; R3; R4; R5; R6; R7; R8; R9; R10; RJ; RQ; RK; RA].

(** [[Card(rank) for _ in range(num_decks) for rank in RANKS * 4]];
    [range] of a negative number is empty. *)
Definition fresh_cards (num_decks : Z) : list Card.t :=
  flat_map (fun _ => map Card.mk (list_mul RANKS 4))
           (seq 0 (Z.to_nat num_decks)).

Section DeckOps.
Context {RS : RandomSource}.

(** The fields of a [Deck] object, with the state of the generator its
    [reset] consumes. *)
Record t : Type := mk {
  cards : list Card.t;
  num_decks : Z;
  random : rng
}.

(** [Deck.reset] *)
Definition reset (d : t) : t :=
  let '(cs, g) := shuffle (random d) (fresh_cards (num_decks d)) in
  mk cs (num_decks d) g.

(** [Deck.__init__] *)
Definition init (n : Z) (g : rng) : t := reset (mk [] n g).

(** [Deck.draw] *)
Definition draw : M t Card.t :=
  fun d =>
    let d := if (length (cards d) <? 10)%nat then reset d else d in
    match pop (cards d) with
    | None => Raised IndexError d
    | Some (c, rest) => Return c (mk rest (num_decks d) (random d))
    end.

End DeckOps.

End Deck.

(** ** Strategies *)

(** The abstract class [Strategy].  A strategy is the two functions its
    methods compute; the provided [BasicStrategy] keeps no state. *)
Record Strategy : Set := {
  get_bet : float -> float;
  should_hit : Z -> bool -> Z -> bool
}.

(** The builtin [min(a, b)]: [a] unless [b < a]. *)
Definition py_min (a b : float) : float :=
  if (b <? a)%float then b else a.

Definition BasicStrategy : Strategy := {|
  get_bet := fun bankroll => py_min 10 bankroll;
  should_hit := fun player_value is_soft dealer_upcard =>
    if is_soft then player_value <? 18 else player_value <? 17
|}.

(** ** One round *)

Module Game.

(** The two hands of a [Game] object; its [deck] field is the store of the
    monad. *)
Record t : Set := mk {
  player_hand : Hand.t;
  dealer_hand : Hand.t
}.

(** [Game.__init__] *)
Definition new : t := mk Hand.empty Hand.empty.

Definition hit_player (g : t) (c : Card.t) : t :=
  mk (Hand.add_card (player_hand g) c) (dealer_hand g).

Definition hit_dealer (g : t) (c : Card.t) : t :=
  mk (player_hand g) (Hand.add_card (dealer_hand g) c).

(** [Game.get_result] *)
Definition get_result (g : t) (bet : float) : float :=
  let player_value := fst (Hand.value (player_hand g)) in
  let dealer_value := fst (Hand.value (dealer_hand g)) in
  if player_value >? 21 then (- bet)%float
  else if Hand.is_blackjack (player_hand g)
          && negb (Hand.is_blackjack (dealer_hand g))
  then (bet * 1.5)%float
  else if Hand.is_blackjack (dealer_hand g)
          && negb (Hand.is_blackjack (player_hand g))
  then (- bet)%float
  else if Hand.is_blackjack (player_hand g)
          && Hand.is_blackjack (dealer_hand g)
  then 0%float
  else if dealer_value >? 21 then bet
  else if player_value >? dealer_value then bet
  else if player_value <? dealer_value then (- bet)%float
  else 0%float.

Section GameOps.
Context {RS : RandomSource}.
Local Open Scope py_scope.

(** [Game.deal] *)
Definition deal (g : t) : M Deck.t t :=
  c <- Deck.draw ;; let g := hit_player g c in
  c <- Deck.draw ;; let g := hit_dealer g c in
  c <- Deck.draw ;; let g := hit_player g c in
  c <- Deck.draw ;; let g := hit_dealer g c in
  ret g.

(** The [while True] loop of [Game.player_plays], one unit of fuel per
    iteration.  [self.dealer_hand.cards[0]] raises [IndexError] on an
    empty dealer hand.  The result is the returned flag with the hands
    as the method leaves them. *)
Fixpoint player_plays_loop (fuel : nat) (strategy : Strategy) (g : t)
  : M Deck.t (bool * t) :=
  match fuel with
  | O => fun _ => OutOfFuel
  | S fuel =>
      let '(player_value, is_soft) := Hand.value (player_hand g) in
      match Hand.cards (dealer_hand g) with
      | [] => raise IndexError
      | upcard :: _ =>
          let dealer_upcard := Card.value upcard in
          if should_hit strategy player_value is_soft dealer_upcard then
            c <- Deck.draw ;;
            let g := hit_player g c in
            if fst (Hand.value (player_hand g)) >? 21
            then ret (false, g)
            else player_plays_loop fuel strategy g
          else ret (true, g)
      end
  end.

(** [Game.player_plays].  Twenty-two iterations always suffice
    (see [player_plays_loop_fuel]). *)
Definition player_plays (strategy : Strategy) (g : t)
  : M Deck.t (bool * t) :=
  player_plays_loop 22 strategy g.

(** The [while] loop of [Game.dealer_plays], one unit of fuel per test
    of its condition. *)
Fixpoint dealer_plays_loop (fuel : nat) (g : t) : M Deck.t t :=
  match fuel with
  | O => fun _ => OutOfFuel
  | S fuel =>
      if fst (Hand.value (dealer_hand g)) <? 17 then
        c <- Deck.draw ;;
        dealer_plays_loop fuel (hit_dealer g c)
      else ret g
  end.

(** [Game.dealer_plays].  Eighteen tests always suffice
    (see [dealer_plays_loop_fuel]). *)
Definition dealer_plays (g : t) : M Deck.t t :=
  dealer_plays_loop 18 g.

End GameOps.

End Game.

(** ** The simulation *)

(** The local variables of the loop of [simulate]. *)
Module Loop.

Record t : Set := mk {
  bankroll : float;
  wins : Z;
  losses : Z;
  pushes : Z
}.

(** The body of the loop after [play_hand] has returned: the new bankroll
    is stored and the payoff classified by its sign. *)
Definition record_payoff (st : t) (new_bankroll payoff : float) : t :=
  if (0 <? payoff)%float
  then mk new_bankroll (wins st + 1) (losses st) (pushes st)
  else if (payoff <? 0)%float
  then mk new_bankroll (wins st) (losses st + 1) (pushes st)
  else mk new_bankroll (wins st) (losses st) (pushes st + 1).

(** [wins + losses + pushes] *)
Definition hands_counted (st : t) : Z := wins st + losses st + pushes st.

End Loop.

(** The dictionary [simulate] returns, one field per key. *)
Module Summary.

Record t : Set := mk {
  final_bankroll : float;
  profit : float;
  roi : float;
  wins : Z;
  losses : Z;
  pushes : Z;
  win_rate : float
}.

End Summary.

(** [float(z)] for an [int]: the nearest binary64 value, ties to even. *)
Definition float_of_int (z : Z) : float :=
  SF2Prim (binary_normalize prec emax z 0 false).

(** [a / b] on floats: a zero divisor of either sign raises. *)
Definition float_div {St : Type} (a b : float) : M St float :=
  if (b =? 0)%float then raise ZeroDivisionError else ret (a / b)%float.

(** [a / b] on ints: a zero divisor raises; otherwise the quotient as a
    float.  The quotient is computed from the conversions of the two
    operands, which is Python's result for operands below [2^53] in
    absolute value (counts of hands are). *)
Definition int_div {St : Type} (a b : Z) : M St float :=
  if b =? 0 then raise ZeroDivisionError
  else ret (float_of_int a / float_of_int b)%float.

Section Rounds.
Context {RS : RandomSource}.
Local Open Scope py_scope.

(** [bet <= 0 or bet > bankroll] *)
Definition invalid_bet (bet bankroll : float) : bool :=
  (bet <=? 0)%float || (bankroll <? bet)%float.

(** The body of [play_hand], returning its local [game] next to the pair
    the function returns. *)
Definition play_hand_game (strategy : Strategy) (bankroll : float)
  : M Deck.t (Game.t * (float * float)) :=
  let bet := get_bet strategy bankroll in
  if invalid_bet bet bankroll then raise (ValueError bet)
  else
    game <- Game.deal Game.new ;;
    ' (player_still_active, game) <- Game.player_plays strategy game ;;
    game <- (if player_still_active : bool
             then Game.dealer_plays game else ret game) ;;
    let payoff := Game.get_result game bet in
    let new_bankroll := (bankroll - bet + payoff)%float in
    ret (game, (new_bankroll, payoff)).

(** [play_hand] *)
Definition play_hand (strategy : Strategy) (bankroll : float)
  : M Deck.t (float * float) :=
  r <- play_hand_game strategy bankroll ;; ret (snd r).

(** The [for _ in range(num_hands)] loop of [simulate], by recursion on
    the number of iterations left. *)
Fixpoint simulate_loop (n : nat) (strategy : Strategy) (st : Loop.t)
  : M Deck.t Loop.t :=
  match n with
  | O => ret st
  | S n =>
      if (Loop.bankroll st <=? 0)%float then ret st
      else
        ' (new_bankroll, payoff) <- play_hand strategy (Loop.bankroll st) ;;
        simulate_loop n strategy (Loop.record_payoff st new_bankroll payoff)
  end.

(** The dictionary display that ends [simulate]; its values are evaluated
    in the order of the keys. *)
Definition summarize (st : Loop.t) (num_hands : Z)
  (starting_bankroll : float) : M Deck.t Summary.t :=
  let bankroll := Loop.bankroll st in
  let profit := (bankroll - starting_bankroll)%float in
  q <- float_div (bankroll - starting_bankroll)%float starting_bankroll ;;
  let roi := (q * 100)%float in
  r <- int_div (Loop.wins st) num_hands ;;
  let win_rate := (r * 100)%float in
  ret (Summary.mk bankroll profit roi
         (Loop.wins st) (Loop.losses st) (Loop.pushes st) win_rate).

(** [simulate], run from the state [g] of the random generator. *)
Definition simulate (strategy : Strategy) (num_hands num_decks : Z)
  (starting_bankroll : float) (g : rng) : outcome Deck.t Summary.t :=
  let deck := Deck.init num_decks g in
  (st <- simulate_loop (Z.to_nat num_hands) strategy
          (Loop.mk starting_bankroll 0 0 0) ;;
   summarize st num_hands starting_bankroll) deck.

End Rounds.

(** ** A concrete random source *)

(** A deterministic generator whose state is a number [k]: the shuffle cuts
    the list after its first [k] cards, puts the two parts back in the other
    order, and steps [k]. *)
Definition cut_shuffle (k : nat) (l : list Card.t) : list Card.t * nat :=
  (skipn k l ++ firstn k l, S k).

(** The cut is a permutation: the list is its first [k] cards followed by
    the others, and the two parts commute. *)
Definition cut_shuffle_permutes (k : nat) (l : list Card.t)
  : Permutation l (fst (cut_shuffle k l)) :=
  eq_ind (firstn k l ++ skipn k l)
         (fun whole => Permutation whole (skipn k l ++ firstn k l))
         (Permutation_app_comm (firstn k l) (skipn k l))
         l (firstn_skipn k l).

#[local] Instance CutSource : RandomSource := {|
  rng := nat;
  shuffle := cut_shuffle;
  shuffle_permutes := cut_shuffle_permutes
|}.

(** ** The shoe a draw pops from *)

(** Rebuilt when fewer than ten cards are left, the shoe itself otherwise:
    the first statement of [Deck.draw]. *)
Definition drawn_from {RS : RandomSource} (d : Deck.t) : Deck.t :=
  if (length (Deck.cards d) <? 10)%nat then Deck.reset d else d.

(** ** Settlement as the specification words it *)

Module Settlement.

(** The eight rules in their order, each a condition on the two hands with
    the payoff it awards. *)
Definition rules (g : Game.t) (bet : float) : list (bool * float) :=
  let player := Game.player_hand g in
  let dealer := Game.dealer_hand g in
  let player_total := fst (Hand.value player) in
  let dealer_total := fst (Hand.value dealer) in
  [ (player_total >? 21, (- bet)%float);
    (Hand.is_blackjack player && negb (Hand.is_blackjack dealer),
     (bet * 1.5)%float);
    (Hand.is_blackjack dealer && negb (Hand.is_blackjack player),
     (- bet)%float);
    (Hand.is_blackjack player && Hand.is_blackjack dealer, 0%float);
    (dealer_total >? 21, bet);
    (player_total >? dealer_total, bet);
    (player_total <? dealer_total, (- bet)%float);
    (player_total =? dealer_total, 0%float) ].

(** First matching rule wins; [None] is the fallthrough. *)
Fixpoint first_match (rs : list (bool * float)) : option float :=
  match rs with
  | [] => None
  | (applies, payoff) :: rs => if applies then Some payoff else first_match rs
  end.

End Settlement.

(** ** The least of two floats *)

(** [m] is one of [a] and [b] and is below both in the order of binary64. *)
Definition float_min_of (m a b : float) : Prop :=
  (m = a \/ m = b) /\ (m <=? a)%float = true /\ (m <=? b)%float = true.

(** ** Shoes and a strategy to run the program on *)

(** A single-deck shoe on [CutSource] holding the given ranks, the last one
    on top. *)
Definition shoe_of (ranks : list Rank) : @Deck.t CutSource :=
  Deck.mk (map Card.mk ranks) 1 0%nat.

(** Two cards left: the next draw rebuilds the shoe. *)
Definition low_shoe : @Deck.t CutSource := shoe_of [R5; RK].

(** The player is dealt ten and six against ten and nine, hits on sixteen
    and draws the king. *)
Definition bust_shoe : @Deck.t CutSource :=
  shoe_of [R2; R3; R4; R5; R6; R7; R8; R9; R2; R3; RK; R9; R6; R10; R10].

(** The player is dealt two tens against ten and eight. *)
Definition win_shoe : @Deck.t CutSource :=
  shoe_of [R2; R3; R4; R5; R6; R7; R8; R9; R2; R3; R8; R10; R10; R10].

(** A strategy that always bets two tenths and plays its hand like
    [BasicStrategy]. *)
Definition FifthBets : Strategy := {|
  get_bet := fun _ => (2 / 10)%float;
  should_hit := should_hit BasicStrategy
|}.

(** The ten cards both shoes keep once their round is over. *)
Definition shoe_left : @Deck.t CutSource :=
  shoe_of [R2; R3; R4; R5; R6; R7; R8; R9; R2; R3].

(** The hands the round on [bust_shoe] ends with. *)
Definition bust_game : Game.t :=
  Game.mk (Hand.mk (map Card.mk [R10; R6; RK]))
          (Hand.mk (map Card.mk [R10; R9])).

(** The hands the round on [win_shoe] ends with. *)
Definition win_game : Game.t :=
  Game.mk (Hand.mk (map Card.mk [R10; R10]))
          (Hand.mk (map Card.mk [R10; R8])).

(** The single-deck shoe built from the generator in state 1, and what is
    left of it when its last five cards have been drawn. *)
Definition first_shoe : @Deck.t CutSource := Deck.init 1 1%nat.

Definition first_shoe_dealt : @Deck.t CutSource :=
  Deck.mk (firstn 47 (Deck.cards first_shoe)) 1 2%nat.

(** ** Ranks as the strings of the source *)

Module RankText.
Import Stdlib.Strings.Ascii Stdlib.Strings.String.

(** The string a rank stands for. *)
Definition rank_str (r : Rank) : string :=
  match r with
  | R2 => "2" | R3 => "3" | R4 => "4" | R5 => "5" | R6 => "6"
  | R7 => "7" | R8 => "8" | R9 => "9" | R10 => "10"
  | RJ => "J" | RQ => "Q" | RK => "K" | RA => "A"
  end%string.

(** [Card.__repr__] *)
Definition repr (c : Card.t) : string := rank_str (Card.rank c).

(** The value of a decimal digit. *)
Definition digit_of (a : ascii) : option Z :=
  let n := Z.of_N (N_of_ascii a) in
  if (48 <=? n) && (n <=? 57) then Some (n - 48) else None.

Fixpoint parse_digits (acc : Z) (s : string) : option Z :=
  match s with
  | EmptyString => Some acc
  | String a rest =>
      match digit_of a with
      | Some d => parse_digits (10 * acc + d) rest
      | None => None
      end
  end.

(** [int(s)] on a string of decimal digits; [None] stands for the
    [ValueError] of the empty string and of any other character (Python
    also accepts signs, blanks and underscores, which no rank has). *)
Definition py_int (s : string) : option Z :=
  match s with
  | EmptyString => None
  | _ => parse_digits 0 s
  end.

(** [Card.value] as the source computes it, from the string. *)
Definition value_of_str (rank : string) : option Z :=
  if (rank =? "A")%string then Some 11
  else if existsb (String.eqb rank) ["J"; "Q"; "K"]%string then Some 10
  else py_int rank.

(** The literal list [Deck.RANKS] of the source. *)
Definition RANKS_text : list string :=
  ["2"; "3"; "4"; "5"; "6"; "7"; "8"; "9"; "10"; "J"; "Q"; "K"; "A"]%string.

End RankText.

(** ** Counting the cards of a rank *)

Definition rank_eqb (a b : Rank) : bool :=
  match a, b with
  | R2, R2 | R3, R3 | R4, R4 | R5, R5 | R6, R6 | R7, R7 | R8, R8
  | R9, R9 | R10, R10 | RJ, RJ | RQ, RQ | RK, RK | RA, RA => true
  | _, _ => false
  end.

(** The number of cards of rank [r] in a list. *)
Definition count_rank (r : Rank) (cs : list Card.t) : nat :=
  length (filter (fun c => rank_eqb r (Card.rank c)) cs).

(** A shoe that cannot be refilled: no deck, five cards left. *)
Definition deckless_shoe : @Deck.t CutSource :=
  Deck.mk (map Card.mk [R2; R3; R4; R5; R6]) 0 0%nat.

(** The player holds five and four against ten and seven. *)
Definition nine_game : Game.t :=
  Game.mk (Hand.mk (map Card.mk [R5; R4]))
          (Hand.mk (map Card.mk [R10; R7])).

(** [nine_game] after one hit, a ten. *)
Definition nineteen_game : Game.t :=
  Game.mk (Hand.mk (map Card.mk [R5; R4; R10]))
          (Hand.mk (map Card.mk [R10; R7])).

(** [win_shoe] less its top card. *)
Definition win_shoe_hit : @Deck.t CutSource :=
  shoe_of [R2; R3; R4; R5; R6; R7; R8; R9; R2; R3; R8; R10; R10].

(** The player holds ten and six against ten and nine. *)
Definition sixteen_game : Game.t :=
  Game.mk (Hand.mk (map Card.mk [R10; R6]))
          (Hand.mk (map Card.mk [R10; R9])).

(** [bust_shoe] once the four cards are dealt: the king is on top. *)
Definition bust_shoe_dealt : @Deck.t CutSource :=
  shoe_of [R2; R3; R4; R5; R6; R7; R8; R9; R2; R3; RK].





(** ** Cards drawn in a row *)

(** [n] calls of [Deck.draw] one after the other: the cards in the order
    drawn, and the shoe they leave. *)
Fixpoint draw_list {RS : RandomSource} (n : nat) : M Deck.t (list Card.t) :=
  match n with
  | O => ret []
  | S n =>
      bind Deck.draw (fun c => bind (draw_list n) (fun cs => ret (c :: cs)))
  end.

(** The hand once the first [k] of the cards [cs] have been added to it. *)
Definition hand_after (h : Hand.t) (k : nat) (cs : list Card.t) : Hand.t :=
  Hand.mk (Hand.cards h ++ firstn k cs).

(** Two tens for the player, ten and six for the dealer. *)
Definition dealer_sixteen_game : Game.t :=
  Game.mk (Hand.mk (map Card.mk [R10; R10]))
          (Hand.mk (map Card.mk [R10; R6])).

(** [dealer_sixteen_game] after the dealer has drawn a ten. *)
Definition dealer_bust_game : Game.t :=
  Game.mk (Hand.mk (map Card.mk [R10; R10]))
          (Hand.mk (map Card.mk [R10; R6; R10])).

(** * Properties *)

(** ** Hand valuation *)

Lemma scan_from (cs : list Card.t) (total : Z) (aces : nat) :
  fold_left Hand.count_card cs (total, aces) =
  (total + fold_right Z.add 0 (map Card.value cs),
   (aces + length (filter Card.is_ace cs))%nat).
Proof.
  revert total aces.
  induction cs as [|c cs IH]; intros total aces; simpl.
  - f_equal; lia.
  - rewrite IH. destruct (Card.is_ace c); simpl; f_equal; lia.
Qed.

Lemma scan_totals (h : Hand.t) :
  Hand.scan (Hand.cards h) = (Hand.base_total h, Hand.ace_count h).
Proof.
  unfold Hand.scan, Hand.base_total, Hand.ace_count.
  rewrite scan_from. reflexivity.
Qed.

Lemma reduce_steps (aces : nat) (total : Z) :
  Hand.ace_steps (total, aces) (Hand.reduce total aces).
Proof.
  revert total.
  induction aces as [|aces IH]; intros total; simpl.
  - apply Hand.ace_steps_done.
  - destruct (Z.gtb_spec total 21) as [Hgt|Hle].
    + eapply Hand.ace_steps_more; [constructor; lia | apply IH].
    + apply Hand.ace_steps_done.
Qed.

Lemma reduce_settled (aces : nat) (total : Z) :
  Hand.settled (Hand.reduce total aces).
Proof.
  revert total.
  induction aces as [|aces IH]; intros total; simpl.
  - right; reflexivity.
  - destruct (Z.gtb_spec total 21) as [Hgt|Hle].
    + apply IH.
    + left; simpl; lia.
Qed.

Lemma settled_no_step (st st' : Z * nat) :
  Hand.settled st -> ~ Hand.ace_step st st'.
Proof.
  intros [Hle|Hzero] Hstep; inversion Hstep; subst; simpl in *; lia || discriminate.
Qed.

Lemma ace_step_functional (st st1 st2 : Z * nat) :
  Hand.ace_step st st1 -> Hand.ace_step st st2 -> st1 = st2.
Proof.
  intros H1 H2. inversion H1; subst. inversion H2; subst. reflexivity.
Qed.

(** The reduction loop has one final state. *)
Lemma ace_steps_confluent (st st1 st2 : Z * nat) :
  Hand.ace_steps st st1 -> Hand.settled st1 ->
  Hand.ace_steps st st2 -> Hand.settled st2 -> st1 = st2.
Proof.
  intros H1. revert st2.
  induction H1 as [st|st mid st1 Hstep Hrest IH]; intros st2 Hs1 H2 Hs2.
  - destruct H2 as [st|st mid' st2 Hstep' Hrest']; [reflexivity|].
    exfalso; exact (settled_no_step _ _ Hs1 Hstep').
  - destruct H2 as [st|st mid' st2 Hstep' Hrest'].
    + exfalso; exact (settled_no_step _ _ Hs2 Hstep).
    + rewrite (ace_step_functional _ _ _ Hstep' Hstep) in Hrest'.
      apply IH; assumption.
Qed.

(** Each step trades ten points for one ace. *)
Lemma ace_steps_count (st st' : Z * nat) :
  Hand.ace_steps st st' ->
  (snd st' <= snd st)%nat /\
  fst st' = fst st - 10 * (Z.of_nat (snd st) - Z.of_nat (snd st')).
Proof.
  induction 1 as [st|st mid st' Hstep _ IH].
  - split; lia.
  - destruct Hstep as [total high Hgt]. cbn [fst snd] in *.
    rewrite Nat2Z.inj_succ. lia.
Qed.

(** Ace and seven are a soft eighteen; a ten on top makes them a hard
    eighteen; two aces count twelve; three tens are a bust. *)
Example value_soft_then_hard :
  Hand.value (Hand.mk (map Card.mk [RA; R7])) = (18, true) /\
  Hand.value (Hand.mk (map Card.mk [RA; R7; R10])) = (18, false) /\
  Hand.value (Hand.mk (map Card.mk [RA; RA])) = (12, true) /\
  Hand.value (Hand.mk (map Card.mk [RK; RQ; R10])) = (30, false).
Proof. repeat split; reflexivity. Qed.

(** C3. [Hand.value] returns [(total, is_soft)] exactly when [total] is
    what is left of the sum of the base values (aces as 11) after the
    reduction loop has run to its end, reinterpreting one ace from 11 to 1
    per step while the total exceeds 21 and such an ace remains, and
    [is_soft] tells whether an ace is still counted as 11 at that point. *)
Theorem Hand_value_reduction (h : Hand.t) (total : Z) (is_soft : bool) :
  Hand.value h = (total, is_soft) <->
  exists high : nat,
    Hand.ace_steps (Hand.base_total h, Hand.ace_count h) (total, high) /\
    Hand.settled (total, high) /\
    (is_soft = true <-> (0 < high)%nat).
Proof.
  unfold Hand.value. rewrite scan_totals.
  pose proof (reduce_steps (Hand.ace_count h) (Hand.base_total h)) as Hsteps.
  pose proof (reduce_settled (Hand.ace_count h) (Hand.base_total h)) as Hset.
  destruct (Hand.reduce (Hand.base_total h) (Hand.ace_count h))
    as [t a] eqn:Hred.
  split.
  - intros Heq. inversion Heq; subst. exists a.
    split; [assumption|]. split; [assumption|].
    destruct a; simpl; split; intros; try lia; try discriminate; reflexivity.
  - intros (high & Hsteps' & Hset' & Hsoft).
    pose proof (ace_steps_confluent _ _ _ Hsteps Hset Hsteps' Hset') as Heq.
    inversion Heq; subst. f_equal.
    destruct high; simpl.
    + destruct is_soft; [|reflexivity].
      exfalso. assert (0 < 0)%nat by (apply Hsoft; reflexivity). lia.
    + symmetry. apply Hsoft. lia.
Qed.

(** C4. A hand is a blackjack exactly when it has two cards and totals 21:
    ace and king is one, two aces and a nine total 21 on three cards and
    are not. *)
Theorem Hand_is_blackjack_iff :
  (forall h : Hand.t,
      Hand.is_blackjack h = true <->
      length (Hand.cards h) = 2%nat /\ fst (Hand.value h) = 21) /\
  Hand.is_blackjack (Hand.mk [Card.mk RA; Card.mk RK]) = true /\
  length (Hand.cards (Hand.mk [Card.mk RA; Card.mk RA; Card.mk R9])) = 3%nat /\
  fst (Hand.value (Hand.mk [Card.mk RA; Card.mk RA; Card.mk R9])) = 21 /\
  Hand.is_blackjack (Hand.mk [Card.mk RA; Card.mk RA; Card.mk R9]) = false.
Proof.
  split; [|repeat split; reflexivity].
  intros h. unfold Hand.is_blackjack.
  rewrite andb_true_iff, Nat.eqb_eq, Z.eqb_eq. reflexivity.
Qed.

(** ** Settlement *)

(** Seventeen against a dealer who drew to twenty loses the bet. *)
Example get_result_dealer_higher :
  Game.get_result
    (Game.mk (Hand.mk (map Card.mk [R10; R7]))
             (Hand.mk (map Card.mk [R10; R6; R4]))) 10 = (-10)%float.
Proof. reflexivity. Qed.

(** A blackjack against nineteen pays three to two. *)
Example get_result_blackjack :
  Game.get_result
    (Game.mk (Hand.mk (map Card.mk [RA; RK]))
             (Hand.mk (map Card.mk [R10; R9]))) 10 = 15%float.
Proof. reflexivity. Qed.

(** Two blackjacks push. *)
Example get_result_two_blackjacks :
  Game.get_result
    (Game.mk (Hand.mk (map Card.mk [RA; RQ]))
             (Hand.mk (map Card.mk [RA; RK]))) 10 = 0%float.
Proof. reflexivity. Qed.

(** C1. [Game.get_result] is the first matching rule of the eight ordered
    settlement rules, for every pair of hands and every bet; some rule
    always matches, so there is no fallthrough. *)
Theorem get_result_first_match (g : Game.t) (bet : float) :
  length (Settlement.rules g bet) = 8%nat /\
  Settlement.first_match (Settlement.rules g bet) =
  Some (Game.get_result g bet).
Proof.
  split; [reflexivity|].
  unfold Settlement.rules, Game.get_result; cbn [Settlement.first_match].
  destruct (fst (Hand.value (Game.player_hand g)) >? 21); [reflexivity|].
  destruct (Hand.is_blackjack (Game.player_hand g));
    destruct (Hand.is_blackjack (Game.dealer_hand g));
    cbn [andb negb]; try reflexivity.
  destruct (fst (Hand.value (Game.dealer_hand g)) >? 21); [reflexivity|].
  destruct (Z.gtb_spec (fst (Hand.value (Game.player_hand g)))
                       (fst (Hand.value (Game.dealer_hand g))));
    [reflexivity|].
  destruct (Z.ltb_spec (fst (Hand.value (Game.player_hand g)))
                       (fst (Hand.value (Game.dealer_hand g))));
    [reflexivity|].
  replace (fst (Hand.value (Game.player_hand g)) =?
           fst (Hand.value (Game.dealer_hand g))) with true;
    [reflexivity|].
  symmetry; apply Z.eqb_eq; lia.
Qed.

(** ** The order of binary64 *)

Lemma SFcompare_antisym (x y : spec_float) :
  SFcompare y x = option_map CompOpp (SFcompare x y).
Proof.
  destruct x as [sx|sx| |sx mx ex], y as [sy|sy| |sy my ey]; simpl;
    try reflexivity;
    try (destruct sx; reflexivity);
    try (destruct sy; reflexivity);
    try (destruct sx, sy; reflexivity).
  f_equal.
  rewrite (Z.compare_antisym ex ey).
  change (PosDef.Pos.compare_cont Eq my mx) with (Pos.compare my mx).
  change (PosDef.Pos.compare_cont Eq mx my) with (Pos.compare mx my).
  rewrite (Pos.compare_antisym mx my).
  destruct sx, sy; simpl; try reflexivity;
    destruct (ex ?= ey); simpl; try reflexivity;
    destruct (mx ?= my)%positive; reflexivity.
Qed.

Lemma float_ltb_leb (x y : float) :
  (x <? y)%float = true -> (x <=? y)%float = true.
Proof.
  rewrite ltb_spec, leb_spec. unfold SFltb, SFleb.
  destruct (SFcompare (Prim2SF x) (Prim2SF y)) as [[]|];
    intros; try discriminate; reflexivity.
Qed.

Lemma float_leb_refl (x : float) :
  is_nan x = false -> (x <=? x)%float = true.
Proof.
  unfold is_nan. rewrite eqb_spec, leb_spec. unfold SFeqb, SFleb.
  destruct (SFcompare (Prim2SF x) (Prim2SF x)) as [[]|];
    intros; try discriminate; reflexivity.
Qed.

Lemma SFcompare_undefined (x y : spec_float) :
  SFcompare x y = None -> SFcompare x x = None \/ SFcompare y y = None.
Proof.
  destruct x, y; simpl; intros H; try discriminate; auto.
Qed.

Lemma float_not_ltb_leb (x y : float) :
  is_nan x = false -> is_nan y = false ->
  (x <? y)%float = false -> (y <=? x)%float = true.
Proof.
  unfold is_nan. rewrite !eqb_spec, ltb_spec, leb_spec.
  unfold SFeqb, SFltb, SFleb.
  rewrite (SFcompare_antisym (Prim2SF x) (Prim2SF y)).
  intros Hx Hy.
  destruct (SFcompare (Prim2SF x) (Prim2SF y)) as [[]|] eqn:Hc; simpl;
    intros Hlt; try reflexivity; try discriminate.
  destruct (SFcompare_undefined _ _ Hc) as [H|H];
    [rewrite H in Hx | rewrite H in Hy]; discriminate.
Qed.

Lemma float_nan_not_ltb (x y : float) :
  is_nan x = true -> (x <? y)%float = false.
Proof.
  unfold is_nan. rewrite eqb_spec, ltb_spec. unfold SFeqb, SFltb.
  destruct (Prim2SF x) as [s|s| |s m e]; simpl;
    intros H; try discriminate; try reflexivity.
  - destruct s; discriminate.
  - exfalso. rewrite Z.compare_refl in H.
    change (PosDef.Pos.compare_cont Eq m m) with (Pos.compare m m) in H.
    rewrite Pos.compare_refl in H. destruct s; discriminate.
Qed.

(** ** The provided strategy *)

(** C9. The bet of [BasicStrategy] is the least of [10.0] and the bankroll
    (and [10.0] when the bankroll is not a number, the first argument of
    Python's [min]); it hits exactly on a soft total below 18 or a hard
    total below 17, whatever the dealer shows. *)
Theorem BasicStrategy_contract :
  (forall bankroll : float,
      if is_nan bankroll
      then get_bet BasicStrategy bankroll = 10%float
      else float_min_of (get_bet BasicStrategy bankroll) 10 bankroll) /\
  (forall (player_total : Z) (is_soft : bool) (dealer_upcard : Z),
      should_hit BasicStrategy player_total is_soft dealer_upcard = true <->
      (is_soft = true /\ player_total < 18) \/
      (is_soft = false /\ player_total < 17)).
Proof.
  split.
  - intros bankroll. cbn [get_bet BasicStrategy]. unfold py_min.
    destruct (is_nan bankroll) eqn:Hnan.
    + rewrite (float_nan_not_ltb _ _ Hnan). reflexivity.
    + unfold float_min_of.
      destruct (bankroll <? 10)%float eqn:Hlt.
      * split; [right; reflexivity|]. split.
        -- apply float_ltb_leb; assumption.
        -- apply float_leb_refl; assumption.
      * split; [left; reflexivity|]. split.
        -- reflexivity.
        -- apply float_not_ltb_leb; [assumption|reflexivity|assumption].
  - intros player_total is_soft dealer_upcard. cbn [should_hit BasicStrategy].
    destruct is_soft; rewrite Z.ltb_lt; split.
    + intros H; left; split; [reflexivity|assumption].
    + intros [[_ H]|[H _]]; [assumption|discriminate].
    + intros H; right; split; [reflexivity|assumption].
    + intros [[H _]|[_ H]]; [discriminate|assumption].
Qed.

(** ** The shoe *)

Lemma pop_snoc {A : Type} (l : list A) (x : A) : pop (l ++ [x]) = Some (x, l).
Proof.
  unfold pop. rewrite rev_app_distr. simpl. rewrite rev_involutive.
  reflexivity.
Qed.

Lemma pop_some {A : Type} (l r : list A) (x : A) :
  pop l = Some (x, r) -> l = r ++ [x].
Proof.
  unfold pop. destruct (rev l) as [|y t] eqn:Hrev; [discriminate|].
  intros H; inversion H; subst.
  rewrite <- (rev_involutive l), Hrev. reflexivity.
Qed.

Lemma pop_nonempty {A : Type} (l : list A) :
  (0 < length l)%nat -> exists x r, pop l = Some (x, r).
Proof.
  intros Hlen. unfold pop.
  destruct (rev l) as [|y t] eqn:Hrev.
  - apply (f_equal (@length A)) in Hrev. rewrite length_rev in Hrev.
    simpl in Hrev. lia.
  - eauto.
Qed.

Lemma flat_map_const_length {A B : Type} (block : list B) (l : list A) :
  length (flat_map (fun _ => block) l) = (length block * length l)%nat.
Proof.
  induction l as [|x l IH]; simpl; [lia|].
  rewrite length_app, IH. lia.
Qed.

Lemma fresh_cards_length (n : Z) :
  length (Deck.fresh_cards n) = (52 * Z.to_nat n)%nat.
Proof.
  unfold Deck.fresh_cards.
  rewrite flat_map_const_length, length_seq. reflexivity.
Qed.

Section DeckFacts.
Context {RS : RandomSource}.

Lemma reset_length (d : Deck.t) :
  length (Deck.cards (Deck.reset d)) = (52 * Z.to_nat (Deck.num_decks d))%nat.
Proof.
  unfold Deck.reset.
  pose proof (shuffle_permutes (Deck.random d)
                (Deck.fresh_cards (Deck.num_decks d))) as Hperm.
  destruct (shuffle (Deck.random d) (Deck.fresh_cards (Deck.num_decks d)))
    as [cs g]. simpl in *.
  rewrite <- (Permutation_length Hperm). apply fresh_cards_length.
Qed.

Lemma reset_num_decks (d : Deck.t) :
  Deck.num_decks (Deck.reset d) = Deck.num_decks d.
Proof.
  unfold Deck.reset.
  destruct (shuffle (Deck.random d) (Deck.fresh_cards (Deck.num_decks d))).
  reflexivity.
Qed.

(** What a successful draw is: the card is the last one of the shoe drawn
    from, the rest stays. *)
Lemma draw_return (d d' : Deck.t) (c : Card.t) :
  Deck.draw d = Return c d' ->
  Deck.cards (drawn_from d) = Deck.cards d' ++ [c] /\
  Deck.num_decks d' = Deck.num_decks d /\
  Deck.random d' = Deck.random (drawn_from d).
Proof.
  unfold Deck.draw. fold (drawn_from d).
  destruct (pop (Deck.cards (drawn_from d))) as [[x r]|] eqn:Hpop;
    [|discriminate].
  intros H; inversion H; subst; simpl.
  split; [apply pop_some; assumption|]. split; [|reflexivity].
  unfold drawn_from. destruct (length (Deck.cards d) <? 10)%nat;
    [apply reset_num_decks | reflexivity].
Qed.

(** A draw raises nothing but [IndexError]. *)
Lemma draw_raised (d d' : Deck.t) (e : exn) :
  Deck.draw d = Raised e d' -> e = IndexError.
Proof.
  unfold Deck.draw.
  destruct (pop _) as [[x r]|]; intros H; inversion H; reflexivity.
Qed.

Lemma draw_fuel (d : Deck.t) : Deck.draw d <> OutOfFuel.
Proof.
  unfold Deck.draw. destruct (pop _) as [[x r]|]; discriminate.
Qed.

(** C5. On a shoe of at least one deck [Deck.draw] returns a card.  When
    fewer than ten cards were left the shoe was rebuilt first, and
    [num_decks * 52 - 1] cards remain; otherwise no reset took place (the
    cards and the generator are the old ones) and one card less remains. *)
Theorem Deck_draw_count (d : Deck.t) :
  1 <= Deck.num_decks d ->
  exists (c : Card.t) (d' : Deck.t),
    Deck.draw d = Return c d' /\
    Deck.num_decks d' = Deck.num_decks d /\
    if (length (Deck.cards d) <? 10)%nat
    then Deck.cards (Deck.reset d) = Deck.cards d' ++ [c] /\
         Deck.random d' = Deck.random (Deck.reset d) /\
         Z.of_nat (length (Deck.cards d')) = Deck.num_decks d * 52 - 1
    else Deck.cards d = Deck.cards d' ++ [c] /\
         Deck.random d' = Deck.random d /\
         Z.of_nat (length (Deck.cards d')) =
         Z.of_nat (length (Deck.cards d)) - 1.
Proof.
  intros Hdecks.
  assert (Hpos : (0 < length (Deck.cards (drawn_from d)))%nat).
  { unfold drawn_from.
    destruct (Nat.ltb_spec (length (Deck.cards d)) 10) as [Hlow|Hhigh].
    - rewrite reset_length. lia.
    - lia. }
  destruct (pop_nonempty _ Hpos) as (c & rest & Hpop).
  assert (Hdraw : Deck.draw d =
                  Return c (Deck.mk rest (Deck.num_decks (drawn_from d))
                                    (Deck.random (drawn_from d)))).
  { unfold Deck.draw. fold (drawn_from d). rewrite Hpop. reflexivity. }
  exists c, (Deck.mk rest (Deck.num_decks (drawn_from d))
                     (Deck.random (drawn_from d))).
  split; [exact Hdraw|].
  destruct (draw_return _ _ _ Hdraw) as (Hcards & Hnum & _).
  split; [exact Hnum|].
  cbn [Deck.cards Deck.random] in *.
  apply pop_some in Hpop.
  assert (Hlen : length (Deck.cards (drawn_from d)) = S (length rest)).
  { rewrite Hpop, length_app. simpl. lia. }
  unfold drawn_from in *.
  destruct (Nat.ltb_spec (length (Deck.cards d)) 10) as [Hlow|Hhigh].
  - split; [exact Hpop|]. split; [reflexivity|].
    rewrite reset_length in Hlen. lia.
  - split; [exact Hpop|]. split; [reflexivity|]. lia.
Qed.

End DeckFacts.

(** ** Totals grow with every card *)

Lemma base_total_add_card (h : Hand.t) (c : Card.t) :
  Hand.base_total (Hand.add_card h c) = Hand.base_total h + Card.value c.
Proof.
  unfold Hand.base_total, Hand.add_card; simpl.
  induction (Hand.cards h) as [|x l IH]; simpl; lia.
Qed.

Lemma ace_count_add_card (h : Hand.t) (c : Card.t) :
  Hand.ace_count (Hand.add_card h c) =
  (Hand.ace_count h + if Card.is_ace c then 1 else 0)%nat.
Proof.
  unfold Hand.ace_count, Hand.add_card; simpl.
  rewrite filter_app, length_app. simpl.
  destruct (Card.is_ace c); reflexivity.
Qed.

Lemma hard_total_add_card (h : Hand.t) (c : Card.t) :
  Hand.hard_total h + 1 <= Hand.hard_total (Hand.add_card h c).
Proof.
  unfold Hand.hard_total.
  rewrite base_total_add_card, ace_count_add_card.
  destruct c as [[]]; cbn [Card.is_ace Card.value Card.rank]; lia.
Qed.

Lemma hard_total_nonneg (h : Hand.t) : 0 <= Hand.hard_total h.
Proof.
  destruct h as [cs]. unfold Hand.hard_total, Hand.base_total, Hand.ace_count.
  cbn [Hand.cards].
  induction cs as [|c cs IH]; [simpl; lia|].
  cbn [map fold_right filter].
  destruct c as [[]]; cbn [Card.is_ace Card.value Card.rank length];
    try rewrite Nat2Z.inj_succ; lia.
Qed.

(** The total [Hand.value] reports is at least the hard total. *)
Lemma value_ge_hard_total (h : Hand.t) :
  Hand.hard_total h <= fst (Hand.value h).
Proof.
  unfold Hand.value. rewrite scan_totals.
  pose proof (reduce_steps (Hand.ace_count h) (Hand.base_total h)) as Hsteps.
  apply ace_steps_count in Hsteps.
  destruct (Hand.reduce (Hand.base_total h) (Hand.ace_count h)) as [t a].
  unfold Hand.hard_total. cbn [fst snd] in *. lia.
Qed.

(** Two cards never exceed 21. *)
Lemma two_cards_at_most_21 (c1 c2 : Card.t) :
  fst (Hand.value (Hand.mk [c1; c2])) <= 21.
Proof.
  destruct c1 as [[]], c2 as [[]]; vm_compute; discriminate.
Qed.

(** ** The two turns of a round *)

Section GameFacts.
Context {RS : RandomSource}.

(** Unfolds one iteration of the player's loop and splits on everything it
    branches on. *)
Ltac player_iteration g d Hdraw Hbust :=
  cbn [Game.player_plays_loop];
  destruct (Hand.value (Game.player_hand g)) as [player_value is_soft]
    eqn:Hvalue;
  destruct (Hand.cards (Game.dealer_hand g)) as [|upcard others];
    [unfold raise
    |destruct (should_hit _ player_value is_soft (Card.value upcard));
       [unfold bind;
        destruct (Deck.draw d) as [c d1|e1 d1|] eqn:Hdraw;
          [destruct (fst (Hand.value (Game.player_hand (Game.hit_player g c)))
                     >? 21) eqn:Hbust
          | | ]
       |unfold ret]].

Lemma player_plays_loop_return (fuel : nat) (s : Strategy) :
  forall (g g' : Game.t) (d d' : Deck.t) (b : bool),
    Game.player_plays_loop fuel s g d = Return (b, g') d' ->
    Game.dealer_hand g' = Game.dealer_hand g /\
    (b = false -> 21 < fst (Hand.value (Game.player_hand g'))) /\
    (b = true -> fst (Hand.value (Game.player_hand g)) <= 21 ->
     fst (Hand.value (Game.player_hand g')) <= 21).
Proof.
  induction fuel as [|fuel IH]; intros g g' d d' b; [discriminate|].
  player_iteration g d Hdraw Hbust; intros H; try discriminate.
  - unfold ret in H. inversion H; subst. cbn [Game.hit_player Game.dealer_hand].
    split; [reflexivity|]. split; [intros _; lia|discriminate].
  - apply IH in H. destruct H as (Hdealer & Hfalse & Htrue).
    split; [exact Hdealer|]. split; [exact Hfalse|].
    intros Hb _. apply Htrue; [exact Hb|]. lia.
  - inversion H; subst.
    split; [reflexivity|]. split; [discriminate|].
    intros _ Hle. rewrite Hvalue. exact Hle.
Qed.

Lemma player_plays_loop_raised (fuel : nat) (s : Strategy) :
  forall (g : Game.t) (d d' : Deck.t) (e : exn),
    Game.player_plays_loop fuel s g d = Raised e d' -> e = IndexError.
Proof.
  induction fuel as [|fuel IH]; intros g d d' e; [discriminate|].
  player_iteration g d Hdraw Hbust; intros H; try discriminate.
  - inversion H; reflexivity.
  - eapply IH; exact H.
  - inversion H; subst. eapply draw_raised; exact Hdraw.
Qed.

(** The loop ends within the fuel it is given as soon as that exceeds the
    distance of the hard total of the player's hand to 21. *)
Lemma player_plays_loop_fuel (fuel : nat) (s : Strategy) :
  forall (g : Game.t) (d : Deck.t),
    (Z.to_nat (21 - Hand.hard_total (Game.player_hand g)) < fuel)%nat ->
    Game.player_plays_loop fuel s g d <> OutOfFuel.
Proof.
  induction fuel as [|fuel IH]; intros g d Hfuel; [lia|].
  player_iteration g d Hdraw Hbust; try discriminate.
  - apply IH.
    pose proof (hard_total_add_card (Game.player_hand g) c) as Hgrow.
    pose proof (value_ge_hard_total
                  (Game.player_hand (Game.hit_player g c))) as Hge.
    cbn [Game.hit_player Game.player_hand] in *. lia.
  - exfalso. exact (draw_fuel d Hdraw).
Qed.

(** More fuel than needed changes nothing. *)
Lemma player_plays_loop_more (fuel : nat) (s : Strategy) :
  forall (g : Game.t) (d : Deck.t),
    Game.player_plays_loop fuel s g d <> OutOfFuel ->
    forall extra : nat,
      Game.player_plays_loop (extra + fuel) s g d =
      Game.player_plays_loop fuel s g d.
Proof.
  induction fuel as [|fuel IH]; intros g d Hend extra;
    [exfalso; apply Hend; reflexivity|].
  rewrite Nat.add_succ_r. revert Hend.
  cbn [Game.player_plays_loop].
  destruct (Hand.value (Game.player_hand g)) as [player_value is_soft].
  destruct (Hand.cards (Game.dealer_hand g)) as [|upcard others];
    [reflexivity|].
  destruct (should_hit _ player_value is_soft (Card.value upcard));
    [|reflexivity].
  unfold bind. destruct (Deck.draw d) as [c d1|e1 d1|]; try reflexivity.
  destruct (fst (Hand.value (Game.player_hand (Game.hit_player g c))) >? 21);
    [reflexivity|].
  intros Hend. apply IH; exact Hend.
Qed.

(** [Game.player_plays] returns or raises: its twenty-two iterations are
    enough for every hand, strategy and shoe. *)
Lemma player_plays_total (s : Strategy) (g : Game.t) (d : Deck.t) :
  Game.player_plays s g d <> OutOfFuel.
Proof.
  apply player_plays_loop_fuel.
  pose proof (hard_total_nonneg (Game.player_hand g)). lia.
Qed.

Lemma dealer_plays_loop_return (fuel : nat) :
  forall (g g' : Game.t) (d d' : Deck.t),
    Game.dealer_plays_loop fuel g d = Return g' d' ->
    Game.player_hand g' = Game.player_hand g /\
    17 <= fst (Hand.value (Game.dealer_hand g')).
Proof.
  induction fuel as [|fuel IH]; intros g g' d d'; [discriminate|].
  cbn [Game.dealer_plays_loop].
  destruct (Z.ltb_spec (fst (Hand.value (Game.dealer_hand g))) 17)
    as [Hlow|Hhigh].
  - unfold bind. destruct (Deck.draw d) as [c d1|e1 d1|]; try discriminate.
    intros H. apply IH in H. exact H.
  - intros H; inversion H; subst. split; [reflexivity|assumption].
Qed.

Lemma dealer_plays_loop_raised (fuel : nat) :
  forall (g : Game.t) (d d' : Deck.t) (e : exn),
    Game.dealer_plays_loop fuel g d = Raised e d' -> e = IndexError.
Proof.
  induction fuel as [|fuel IH]; intros g d d' e; [discriminate|].
  cbn [Game.dealer_plays_loop].
  destruct (fst (Hand.value (Game.dealer_hand g)) <? 17); [|discriminate].
  unfold bind. destruct (Deck.draw d) as [c d1|e1 d1|] eqn:Hdraw;
    try discriminate.
  - apply IH.
  - intros H; inversion H; subst. eapply draw_raised; exact Hdraw.
Qed.

Lemma dealer_plays_loop_fuel (fuel : nat) :
  forall (g : Game.t) (d : Deck.t),
    (Z.to_nat (17 - Hand.hard_total (Game.dealer_hand g)) < fuel)%nat ->
    Game.dealer_plays_loop fuel g d <> OutOfFuel.
Proof.
  induction fuel as [|fuel IH]; intros g d Hfuel; [lia|].
  cbn [Game.dealer_plays_loop].
  destruct (Z.ltb_spec (fst (Hand.value (Game.dealer_hand g))) 17)
    as [Hlow|Hhigh]; [|discriminate].
  unfold bind. destruct (Deck.draw d) as [c d1|e1 d1|] eqn:Hdraw;
    try discriminate.
  - apply IH.
    pose proof (hard_total_add_card (Game.dealer_hand g) c) as Hgrow.
    pose proof (value_ge_hard_total (Game.dealer_hand g)) as Hge.
    cbn [Game.hit_dealer Game.dealer_hand]. lia.
  - exfalso. exact (draw_fuel d Hdraw).
Qed.

Lemma dealer_plays_loop_more (fuel : nat) :
  forall (g : Game.t) (d : Deck.t),
    Game.dealer_plays_loop fuel g d <> OutOfFuel ->
    forall extra : nat,
      Game.dealer_plays_loop (extra + fuel) g d =
      Game.dealer_plays_loop fuel g d.
Proof.
  induction fuel as [|fuel IH]; intros g d Hend extra;
    [exfalso; apply Hend; reflexivity|].
  rewrite Nat.add_succ_r. revert Hend.
  cbn [Game.dealer_plays_loop].
  destruct (fst (Hand.value (Game.dealer_hand g)) <? 17); [|reflexivity].
  unfold bind. destruct (Deck.draw d) as [c d1|e1 d1|]; try reflexivity.
  intros Hend. apply IH; exact Hend.
Qed.

(** [Game.dealer_plays] returns or raises: eighteen tests are enough. *)
Lemma dealer_plays_total (g : Game.t) (d : Deck.t) :
  Game.dealer_plays g d <> OutOfFuel.
Proof.
  apply dealer_plays_loop_fuel.
  pose proof (hard_total_nonneg (Game.dealer_hand g)). lia.
Qed.

End GameFacts.

(** ** Sums and differences in binary64 *)

















(** ** One round *)

Section RoundFacts.
Context {RS : RandomSource}.

Lemma bind_return {A B : Type} (m : M Deck.t A) (k : A -> M Deck.t B)
  (d d'' : Deck.t) (b : B) :
  bind m k d = Return b d'' ->
  exists (a : A) (d' : Deck.t), m d = Return a d' /\ k a d' = Return b d''.
Proof.
  unfold bind. destruct (m d) as [a d'|e d'|]; try discriminate.
  intros H. exists a, d'. split; [reflexivity|exact H].
Qed.

Lemma bind_raised {A B : Type} (m : M Deck.t A) (k : A -> M Deck.t B)
  (d d'' : Deck.t) (e : exn) :
  bind m k d = Raised e d'' ->
  m d = Raised e d'' \/
  exists (a : A) (d' : Deck.t), m d = Return a d' /\ k a d' = Raised e d''.
Proof.
  unfold bind. destruct (m d) as [a d'|e' d'|]; try discriminate.
  - intros H. right. exists a, d'. split; [reflexivity|exact H].
  - intros H. left. inversion H; subst. reflexivity.
Qed.

Lemma bind_fuel {A B : Type} (m : M Deck.t A) (k : A -> M Deck.t B)
  (d : Deck.t) :
  bind m k d = OutOfFuel ->
  m d = OutOfFuel \/
  exists (a : A) (d' : Deck.t), m d = Return a d' /\ k a d' = OutOfFuel.
Proof.
  unfold bind. destruct (m d) as [a d'|e' d'|]; try discriminate.
  - intros H. right. exists a, d'. split; [reflexivity|exact H].
  - intros _. left. reflexivity.
Qed.

(** The deal is four draws, to the player and the dealer in turn. *)
Lemma deal_return (g g' : Game.t) (d d' : Deck.t) :
  Game.deal g d = Return g' d' ->
  exists (c1 c2 c3 c4 : Card.t) (d1 d2 d3 : Deck.t),
    Deck.draw d = Return c1 d1 /\ Deck.draw d1 = Return c2 d2 /\
    Deck.draw d2 = Return c3 d3 /\ Deck.draw d3 = Return c4 d' /\
    g' = Game.hit_dealer
           (Game.hit_player (Game.hit_dealer (Game.hit_player g c1) c2) c3)
           c4.
Proof.
  unfold Game.deal. intros H.
  apply bind_return in H. destruct H as (c1 & d1 & H1 & H).
  apply bind_return in H. destruct H as (c2 & d2 & H2 & H).
  apply bind_return in H. destruct H as (c3 & d3 & H3 & H).
  apply bind_return in H. destruct H as (c4 & d4 & H4 & H).
  unfold ret in H. inversion H; subst.
  exists c1, c2, c3, c4, d1, d2, d3. repeat split; assumption.
Qed.

Lemma deal_raised (g : Game.t) (d d' : Deck.t) (e : exn) :
  Game.deal g d = Raised e d' -> e = IndexError.
Proof.
  unfold Game.deal. intros H.
  repeat (apply bind_raised in H;
          destruct H as [H|(? & ? & _ & H)];
          [eapply draw_raised; exact H|]).
  discriminate.
Qed.

Lemma deal_total (g : Game.t) (d : Deck.t) : Game.deal g d <> OutOfFuel.
Proof.
  unfold Game.deal. intros H.
  repeat (apply bind_fuel in H;
          destruct H as [H|(? & ? & _ & H)];
          [exact (draw_fuel _ H)|]).
  discriminate.
Qed.

(** What a round that returns went through. *)
Lemma play_hand_game_return (s : Strategy) (bankroll : float)
  (d d' : Deck.t) (g : Game.t) (new_bankroll payoff : float) :
  play_hand_game s bankroll d = Return (g, (new_bankroll, payoff)) d' ->
  invalid_bet (get_bet s bankroll) bankroll = false /\
  exists (g1 g2 : Game.t) (d1 d2 : Deck.t) (active : bool),
    Game.deal Game.new d = Return g1 d1 /\
    Game.player_plays s g1 d1 = Return (active, g2) d2 /\
    (if active then Game.dealer_plays g2 else ret g2) d2 = Return g d' /\
    payoff = Game.get_result g (get_bet s bankroll) /\
    new_bankroll = (bankroll - get_bet s bankroll + payoff)%float.
Proof.
  unfold play_hand_game.
  destruct (invalid_bet (get_bet s bankroll) bankroll); [discriminate|].
  intros H. split; [reflexivity|].
  apply bind_return in H. destruct H as (g1 & d1 & Hdeal & H).
  apply bind_return in H. destruct H as ([active g2] & d2 & Hplayer & H).
  apply bind_return in H. destruct H as (g3 & d3 & Hdealer & H).
  unfold ret in H. inversion H; subst.
  exists g1, g2, d1, d2, active. repeat split; assumption.
Qed.

(** A round with a valid bet raises nothing but [IndexError]. *)
Lemma play_hand_game_raised (s : Strategy) (bankroll : float)
  (d d' : Deck.t) (e : exn) :
  invalid_bet (get_bet s bankroll) bankroll = false ->
  play_hand_game s bankroll d = Raised e d' -> e = IndexError.
Proof.
  unfold play_hand_game. intros Hvalid. rewrite Hvalid. intros H.
  apply bind_raised in H.
  destruct H as [H|(g1 & d1 & _ & H)]; [eapply deal_raised; exact H|].
  apply bind_raised in H.
  destruct H as [H|([active g2] & d2 & _ & H)];
    [eapply player_plays_loop_raised; exact H|].
  apply bind_raised in H.
  destruct H as [H|(g3 & d3 & _ & H)]; [|discriminate].
  destruct active; [eapply dealer_plays_loop_raised; exact H|discriminate].
Qed.

(** A round always returns or raises. *)
Lemma play_hand_game_total (s : Strategy) (bankroll : float) (d : Deck.t) :
  play_hand_game s bankroll d <> OutOfFuel.
Proof.
  unfold play_hand_game.
  destruct (invalid_bet (get_bet s bankroll) bankroll); [discriminate|].
  intros H.
  apply bind_fuel in H.
  destruct H as [H|(g1 & d1 & _ & H)]; [exact (deal_total _ _ H)|].
  apply bind_fuel in H.
  destruct H as [H|([active g2] & d2 & _ & H)];
    [exact (player_plays_total _ _ _ H)|].
  apply bind_fuel in H.
  destruct H as [H|(g3 & d3 & _ & H)]; [|discriminate].
  destruct active; [exact (dealer_plays_total _ _ H)|discriminate].
Qed.

Lemma play_hand_of_game (s : Strategy) (bankroll : float) (d : Deck.t) :
  play_hand s bankroll d =
  match play_hand_game s bankroll d with
  | Return r d' => Return (snd r) d'
  | Raised e d' => Raised e d'
  | OutOfFuel => OutOfFuel
  end.
Proof. reflexivity. Qed.

Lemma play_hand_total (s : Strategy) (bankroll : float) (d : Deck.t) :
  play_hand s bankroll d <> OutOfFuel.
Proof.
  rewrite play_hand_of_game.
  pose proof (play_hand_game_total s bankroll d) as Hgame.
  destruct (play_hand_game s bankroll d); [discriminate|discriminate|].
  exfalso; apply Hgame; reflexivity.
Qed.

(** C6. [play_hand] raises the invalid-bet [ValueError] exactly when the
    bet of the strategy is at most zero or above the bankroll; the error
    carries that bet and leaves the shoe as it was, no card drawn.  In every
    other case the round returns, or raises the [IndexError] of an empty
    shoe. *)
Theorem play_hand_invalid_bet (s : Strategy) (bankroll : float)
  (d : Deck.t) :
  let bet := get_bet s bankroll in
  ((exists (b : float) (d' : Deck.t),
       play_hand s bankroll d = Raised (ValueError b) d') <->
   ((bet <=? 0)%float = true \/ (bankroll <? bet)%float = true)) /\
  (forall (b : float) (d' : Deck.t),
      play_hand s bankroll d = Raised (ValueError b) d' ->
      b = bet /\ d' = d) /\
  play_hand s bankroll d <> OutOfFuel.
Proof.
  intros bet.
  assert (Hinv : invalid_bet bet bankroll = true ->
                 play_hand s bankroll d = Raised (ValueError bet) d).
  { intros Hbad. rewrite play_hand_of_game. unfold play_hand_game.
    fold bet. rewrite Hbad. reflexivity. }
  assert (Hval : invalid_bet bet bankroll = false ->
                 forall b d', play_hand s bankroll d <> Raised (ValueError b) d').
  { intros Hgood b d' H. rewrite play_hand_of_game in H.
    destruct (play_hand_game s bankroll d) as [r d1|e d1|] eqn:Hgame;
      try discriminate.
    inversion H; subst.
    apply (play_hand_game_raised s bankroll d d' _ Hgood) in Hgame.
    discriminate. }
  split; [|split].
  - split.
    + intros (b & d' & H).
      destruct (invalid_bet bet bankroll) eqn:Hbet.
      * unfold invalid_bet in Hbet. apply orb_true_iff in Hbet. exact Hbet.
      * exfalso. exact (Hval eq_refl b d' H).
    + intros Hbad. exists bet, d. apply Hinv.
      unfold invalid_bet. apply orb_true_iff. exact Hbad.
  - intros b d' H.
    destruct (invalid_bet bet bankroll) eqn:Hbet.
    + rewrite (Hinv eq_refl) in H. inversion H; subst. split; reflexivity.
    + exfalso. exact (Hval eq_refl b d' H).
  - apply play_hand_total.
Qed.

(** C7. In a round that ends with the player's total above 21 the flag of
    [player_plays] was false and the dealer's turn did not run: the round
    ends in the state and with the shoe the player's turn left, the dealer
    holds the second and the fourth card dealt and nothing else, and the
    payoff is the bet negated. *)
Theorem player_bust_skips_dealer (s : Strategy) (bankroll : float)
  (d d' : Deck.t) (g : Game.t) (new_bankroll payoff : float) :
  play_hand_game s bankroll d = Return (g, (new_bankroll, payoff)) d' ->
  21 < fst (Hand.value (Game.player_hand g)) ->
  exists (c1 c2 c3 c4 : Card.t) (d1 d2 d3 d4 : Deck.t),
    Deck.draw d = Return c1 d1 /\ Deck.draw d1 = Return c2 d2 /\
    Deck.draw d2 = Return c3 d3 /\ Deck.draw d3 = Return c4 d4 /\
    Game.player_plays s (Game.mk (Hand.mk [c1; c3]) (Hand.mk [c2; c4])) d4 =
    Return (false, g) d' /\
    Game.dealer_hand g = Hand.mk [c2; c4] /\
    payoff = (- get_bet s bankroll)%float.
Proof.
  intros Hround Hbust.
  apply play_hand_game_return in Hround.
  destruct Hround as
    (_ & g1 & g2 & d4 & d5 & active & Hdeal & Hplayer & Hdealer & Hpay & _).
  apply deal_return in Hdeal.
  destruct Hdeal as (c1 & c2 & c3 & c4 & d1 & d2 & d3 & H1 & H2 & H3 & H4 & Hg1).
  change (Game.hit_dealer
            (Game.hit_player
               (Game.hit_dealer (Game.hit_player Game.new c1) c2) c3) c4)
    with (Game.mk (Hand.mk [c1; c3]) (Hand.mk [c2; c4])) in Hg1.
  subst g1.
  pose proof (player_plays_loop_return _ _ _ _ _ _ _ Hplayer)
    as (Hsame & _ & Htrue).
  destruct active.
  - exfalso.
    apply dealer_plays_loop_return in Hdealer. destruct Hdealer as (Hkeep & _).
    rewrite Hkeep in Hbust.
    specialize (Htrue eq_refl (two_cards_at_most_21 c1 c3)). lia.
  - unfold ret in Hdealer. inversion Hdealer; subst g2 d5.
    exists c1, c2, c3, c4, d1, d2, d3, d4.
    do 5 (split; [assumption|]).
    split; [exact Hsame|].
    rewrite Hpay. unfold Game.get_result.
    destruct (Z.gtb_spec (fst (Hand.value (Game.player_hand g))) 21);
      [reflexivity|lia].
Qed.



End RoundFacts.

(** ** The simulation *)

Section SimulationFacts.
Context {RS : RandomSource}.

(** Once the bankroll is at or below zero the loop plays no round,
    however many iterations are left. *)
Lemma simulate_loop_broke (n : nat) (s : Strategy) (st : Loop.t)
  (d : Deck.t) :
  (Loop.bankroll st <=? 0)%float = true ->
  simulate_loop n s st d = Return st d.
Proof.
  intros Hbroke. destruct n as [|n]; cbn [simulate_loop];
    [reflexivity|]. rewrite Hbroke. reflexivity.
Qed.

(** Running [k] iterations and then [m] more is running [k + m]. *)
Lemma simulate_loop_add (k m : nat) (s : Strategy) :
  forall (st : Loop.t) (d : Deck.t),
    simulate_loop (k + m) s st d =
    bind (simulate_loop k s st) (simulate_loop m s) d.
Proof.
  induction k as [|k IH]; intros st d; [reflexivity|].
  cbn [Nat.add simulate_loop].
  destruct (Loop.bankroll st <=? 0)%float eqn:Hbroke.
  - unfold bind, ret. symmetry. apply simulate_loop_broke. exact Hbroke.
  - unfold bind.
    destruct (play_hand s (Loop.bankroll st) d) as [[nb payoff] d1|e d1|];
      try reflexivity.
    rewrite IH. reflexivity.
Qed.

Lemma record_payoff_counts (st : Loop.t) (new_bankroll payoff : float) :
  Loop.hands_counted (Loop.record_payoff st new_bankroll payoff) =
  Loop.hands_counted st + 1.
Proof.
  unfold Loop.record_payoff, Loop.hands_counted.
  destruct (0 <? payoff)%float; [simpl; lia|].
  destruct (payoff <? 0)%float; simpl; lia.
Qed.

(** Every counted hand is one iteration of the loop. *)
Lemma simulate_loop_counts (n : nat) (s : Strategy) :
  forall (st st' : Loop.t) (d d' : Deck.t),
    simulate_loop n s st d = Return st' d' ->
    Loop.hands_counted st <= Loop.hands_counted st' <=
    Loop.hands_counted st + Z.of_nat n.
Proof.
  induction n as [|n IH]; intros st st' d d'; cbn [simulate_loop].
  - intros H; inversion H; subst. lia.
  - destruct (Loop.bankroll st <=? 0)%float.
    + intros H; inversion H; subst. lia.
    + unfold bind.
      destruct (play_hand s (Loop.bankroll st) d) as [[nb payoff] d1|e d1|];
        try discriminate.
      intros H. apply IH in H. rewrite record_payoff_counts in H. lia.
Qed.

(** The loop itself always ends. *)
Lemma simulate_loop_total (n : nat) (s : Strategy) :
  forall (st : Loop.t) (d : Deck.t), simulate_loop n s st d <> OutOfFuel.
Proof.
  induction n as [|n IH]; intros st d; cbn [simulate_loop]; [discriminate|].
  destruct (Loop.bankroll st <=? 0)%float; [discriminate|].
  unfold bind.
  destruct (play_hand s (Loop.bankroll st) d) as [[nb payoff] d1|e d1|]
    eqn:Hplay; [apply IH|discriminate|].
  exfalso. exact (play_hand_total _ _ _ Hplay).
Qed.

(** C2, on the code.  [simulate] asked for no hand at all returns no
    summary: the loop does not run and the dictionary divides by zero, for
    the return on a zero bankroll or else for the win rate, so the call
    raises [ZeroDivisionError] whatever the other arguments. *)
Theorem simulate_zero_hands_raises (s : Strategy) (num_decks : Z)
  (starting_bankroll : float) (g : rng) :
  simulate s 0 num_decks starting_bankroll g =
  Raised ZeroDivisionError (Deck.init num_decks g).
Proof.
  unfold simulate. cbn [Z.to_nat simulate_loop].
  unfold bind at 1. unfold ret at 1.
  unfold summarize, float_div, int_div, bind, raise, ret.
  destruct (starting_bankroll =? 0)%float; reflexivity.
Qed.

(** C8. When, fewer than [num_hands] iterations into the loop of
    [simulate], the bankroll is at or below zero, the loop ends in that very
    state, shoe included: no further round is played, and the hands counted
    are fewer than [num_hands], in the loop and in any summary returned. *)
Theorem bankruptcy_stops_simulation (s : Strategy) (num_hands num_decks : Z)
  (starting_bankroll : float) (g : rng) (k : nat) (st : Loop.t)
  (dk : Deck.t) :
  (k < Z.to_nat num_hands)%nat ->
  simulate_loop k s (Loop.mk starting_bankroll 0 0 0)
                (Deck.init num_decks g) = Return st dk ->
  (Loop.bankroll st <=? 0)%float = true ->
  simulate_loop (Z.to_nat num_hands) s (Loop.mk starting_bankroll 0 0 0)
                (Deck.init num_decks g) = Return st dk /\
  Loop.wins st + Loop.losses st + Loop.pushes st < num_hands /\
  forall (r : Summary.t) (d' : Deck.t),
    simulate s num_hands num_decks starting_bankroll g = Return r d' ->
    d' = dk /\
    Summary.final_bankroll r = Loop.bankroll st /\
    Summary.wins r = Loop.wins st /\
    Summary.losses r = Loop.losses st /\
    Summary.pushes r = Loop.pushes st /\
    Summary.wins r + Summary.losses r + Summary.pushes r < num_hands.
Proof.
  intros Hearly Hloop Hbroke.
  assert (Hfull : simulate_loop (Z.to_nat num_hands) s
                    (Loop.mk starting_bankroll 0 0 0)
                    (Deck.init num_decks g) = Return st dk).
  { replace (Z.to_nat num_hands)
      with (k + (Z.to_nat num_hands - k))%nat by lia.
    rewrite simulate_loop_add. unfold bind. rewrite Hloop.
    apply simulate_loop_broke. exact Hbroke. }
  assert (Hcount : Loop.wins st + Loop.losses st + Loop.pushes st < num_hands).
  { pose proof (simulate_loop_counts _ _ _ _ _ _ Hloop) as Hc.
    unfold Loop.hands_counted in Hc. cbn [Loop.wins Loop.losses Loop.pushes] in Hc.
    lia. }
  split; [exact Hfull|]. split; [exact Hcount|].
  intros r d'. unfold simulate. unfold bind at 1. rewrite Hfull.
  unfold summarize, float_div, int_div, bind, raise, ret.
  destruct (starting_bankroll =? 0)%float; [discriminate|].
  destruct (num_hands =? 0); [discriminate|].
  intros H; inversion H; subst; cbn.
  repeat (split; [reflexivity|]). exact Hcount.
Qed.

End SimulationFacts.

(** ** Runs of the program *)

(** A draw from a shoe of two cards rebuilds it and leaves 51 cards; a draw
    from a shoe of fourteen leaves thirteen. *)
Lemma Deck_draw_count_run :
  (1 <= Deck.num_decks low_shoe /\
   exists (c : Card.t) (d' : Deck.t),
     Deck.draw low_shoe = Return c d' /\
     Deck.num_decks d' = 1 /\
     Deck.cards (Deck.reset low_shoe) = Deck.cards d' ++ [c] /\
     Deck.random d' = Deck.random (Deck.reset low_shoe) /\
     Z.of_nat (length (Deck.cards d')) = 51) /\
  (1 <= Deck.num_decks win_shoe /\
   exists (c : Card.t) (d' : Deck.t),
     Deck.draw win_shoe = Return c d' /\
     Deck.num_decks d' = 1 /\
     Deck.cards win_shoe = Deck.cards d' ++ [c] /\
     Deck.random d' = Deck.random win_shoe /\
     Z.of_nat (length (Deck.cards d')) = 13).
Proof.
  assert (Hlow : 1 <= Deck.num_decks low_shoe) by (simpl; lia).
  assert (Hwin : 1 <= Deck.num_decks win_shoe) by (simpl; lia).
  split.
  - split; [exact Hlow|]. exact (@Deck_draw_count CutSource low_shoe Hlow).
  - split; [exact Hwin|]. exact (@Deck_draw_count CutSource win_shoe Hwin).
Defined.

(** The player hits on sixteen, draws the king and busts: the dealer keeps
    ten and nine and the bet of 10 is lost. *)
Lemma player_bust_skips_dealer_run :
  play_hand_game BasicStrategy 10000 bust_shoe =
  Return (bust_game, (9980%float, (-10)%float)) shoe_left /\
  21 < fst (Hand.value (Game.player_hand bust_game)) /\
  exists (c1 c2 c3 c4 : Card.t) (d1 d2 d3 d4 : Deck.t),
    Deck.draw bust_shoe = Return c1 d1 /\ Deck.draw d1 = Return c2 d2 /\
    Deck.draw d2 = Return c3 d3 /\ Deck.draw d3 = Return c4 d4 /\
    Game.player_plays BasicStrategy
      (Game.mk (Hand.mk [c1; c3]) (Hand.mk [c2; c4])) d4 =
    Return (false, bust_game) shoe_left /\
    Game.dealer_hand bust_game = Hand.mk [c2; c4] /\
    (-10)%float = (- get_bet BasicStrategy 10000)%float.
Proof.
  assert (Hround : play_hand_game BasicStrategy 10000 bust_shoe =
                   Return (bust_game, (9980%float, (-10)%float)) shoe_left)
    by (vm_compute; reflexivity).
  assert (Hbust : 21 < fst (Hand.value (Game.player_hand bust_game)))
    by (vm_compute; reflexivity).
  split; [exact Hround|]. split; [exact Hbust|].
  exact (@player_bust_skips_dealer CutSource BasicStrategy 10000
           bust_shoe shoe_left bust_game 9980 (-10) Hround Hbust).
Defined.



(** Three hands asked for with a bankroll of 10.0: the player busts on the
    first (two, king, jack), the bankroll is -10.0 and the loop stops with
    one hand counted. *)
Lemma bankruptcy_stops_simulation_run :
  (1 < Z.to_nat 3)%nat /\
  simulate_loop 1 BasicStrategy (Loop.mk 10 0 0 0) first_shoe =
  Return (Loop.mk (-10) 0 1 0) first_shoe_dealt /\
  simulate_loop (Z.to_nat 3) BasicStrategy (Loop.mk 10 0 0 0) first_shoe =
  Return (Loop.mk (-10) 0 1 0) first_shoe_dealt /\
  0 + 1 + 0 < 3 /\
  simulate BasicStrategy 3 1 10 (1%nat : @rng CutSource) =
  Return (Summary.mk (-10) (-20) (-200) 0 1 0 0) first_shoe_dealt.
Proof.
  assert (Hearly : (1 < Z.to_nat 3)%nat) by (simpl; lia).
  assert (Hloop : simulate_loop 1 BasicStrategy (Loop.mk 10 0 0 0)
                    (@Deck.init CutSource 1 1%nat) =
                  Return (Loop.mk (-10) 0 1 0) first_shoe_dealt)
    by (vm_compute; reflexivity).
  assert (Hbroke : (Loop.bankroll (Loop.mk (-10) 0 1 0) <=? 0)%float = true)
    by reflexivity.
  pose proof (@bankruptcy_stops_simulation CutSource BasicStrategy 3 1 10
                1%nat 1%nat (Loop.mk (-10) 0 1 0) first_shoe_dealt
                Hearly Hloop Hbroke) as (Hfull & Hcount & _).
  split; [exact Hearly|]. split; [exact Hloop|].
  split; [exact Hfull|]. split; [exact Hcount|].
  vm_compute; reflexivity.
Defined.

(** * Further properties *)

(** ** The best total of a hand *)

Lemma hard_total_add_card_eq (h : Hand.t) (c : Card.t) :
  Hand.hard_total (Hand.add_card h c) =
  Hand.hard_total h + (if Card.is_ace c then 1 else Card.value c).
Proof.
  unfold Hand.hard_total.
  rewrite base_total_add_card, ace_count_add_card.
  destruct c as [[]]; cbn [Card.is_ace Card.value Card.rank]; lia.
Qed.

(** Every ace is worth at least one point of the hard total. *)
Lemma ace_count_le_hard_total (h : Hand.t) :
  Z.of_nat (Hand.ace_count h) <= Hand.hard_total h.
Proof.
  destruct h as [cs]. unfold Hand.hard_total, Hand.base_total, Hand.ace_count.
  cbn [Hand.cards].
  induction cs as [|c cs IH]; [simpl; lia|].
  cbn [map fold_right filter].
  destruct c as [[]]; cbn [Card.is_ace Card.value Card.rank length];
    try rewrite Nat2Z.inj_succ; lia.
Qed.

(** A reduction past [j] aces counted as 11 was made on a total above 21. *)
Lemma ace_steps_passed (st st' : Z * nat) :
  Hand.ace_steps st st' ->
  forall j : nat,
    (snd st' < j <= snd st)%nat ->
    21 < fst st - 10 * (Z.of_nat (snd st) - Z.of_nat j).
Proof.
  induction 1 as [st|st mid st' Hstep _ IH]; intros j Hj; [lia|].
  destruct Hstep as [total high Hgt]. cbn [fst snd] in *.
  destruct (Nat.eq_dec j (S high)) as [Heq|Hne]; [subst j; lia|].
  specialize (IH j). rewrite Nat2Z.inj_succ. lia.
Qed.

(** What [Hand.value] computes, in closed form: the hard total plus ten for
    each of [high] aces, where [high] is the largest number of aces that
    can count 11 without the total exceeding 21. *)
Lemma value_closed_form (h : Hand.t) :
  exists high : nat,
    (high <= Hand.ace_count h)%nat /\
    fst (Hand.value h) = Hand.hard_total h + 10 * Z.of_nat high /\
    snd (Hand.value h) = negb (Nat.eqb high 0) /\
    (fst (Hand.value h) <= 21 \/ high = 0%nat) /\
    forall j : nat,
      (j <= Hand.ace_count h)%nat ->
      Hand.hard_total h + 10 * Z.of_nat j <= 21 -> (j <= high)%nat.
Proof.
  unfold Hand.value. rewrite scan_totals.
  pose proof (reduce_steps (Hand.ace_count h) (Hand.base_total h)) as Hsteps.
  pose proof (reduce_settled (Hand.ace_count h) (Hand.base_total h)) as Hset.
  pose proof (ace_steps_count _ _ Hsteps) as (Hle & Htotal).
  pose proof (ace_steps_passed _ _ Hsteps) as Hpassed.
  destruct (Hand.reduce (Hand.base_total h) (Hand.ace_count h)) as [t high].
  cbn [fst snd] in *. exists high.
  split; [exact Hle|]. split; [unfold Hand.hard_total; lia|].
  split; [reflexivity|]. split; [exact Hset|].
  intros j Hj Hfit.
  destruct (Nat.le_gt_cases j high) as [Hok|Hover]; [exact Hok|].
  specialize (Hpassed j). unfold Hand.hard_total in Hfit. lia.
Qed.

(** X1. A soft hand totals between 11 and 21.  A hand is bust exactly when
    its hard total (every ace counted 1) exceeds 21, and then the total
    reported is the hard total and the hand is not soft. *)
Theorem Hand_value_soft_and_bust (h : Hand.t) :
  (snd (Hand.value h) = true -> 11 <= fst (Hand.value h) <= 21) /\
  (21 < fst (Hand.value h) <-> 21 < Hand.hard_total h) /\
  (21 < fst (Hand.value h) ->
   fst (Hand.value h) = Hand.hard_total h /\ snd (Hand.value h) = false).
Proof.
  destruct (value_closed_form h) as (high & Hle & Htotal & Hsoft & Hset & _).
  pose proof (ace_count_le_hard_total h) as Haces.
  pose proof (hard_total_nonneg h) as Hnonneg.
  rewrite Hsoft, Htotal. repeat split.
  - destruct high; [discriminate|]. lia.
  - destruct high; [discriminate|]. lia.
  - lia.
  - lia.
  - destruct Hset as [Hfit|Hz]; [lia|subst high; lia].
  - destruct Hset as [Hfit|Hz]; [lia|subst high; reflexivity].
Qed.

(** X2. The total is the best one.  It is the hard total plus ten for
    each of [high] aces counted 11, within 21 unless no ace counts 11, and
    [high] is as large as fits: every way of counting some of the aces 11
    that stays within 21 gives at most the total reported.  The hand is
    soft exactly when some ace counts 11. *)
Theorem Hand_value_is_best (h : Hand.t) :
  exists high : nat,
    (high <= Hand.ace_count h)%nat /\
    fst (Hand.value h) = Hand.hard_total h + 10 * Z.of_nat high /\
    (fst (Hand.value h) <= 21 \/ high = 0%nat) /\
    (snd (Hand.value h) = true <-> (0 < high)%nat) /\
    forall j : nat,
      (j <= Hand.ace_count h)%nat ->
      Hand.hard_total h + 10 * Z.of_nat j <= 21 ->
      (j <= high)%nat /\
      Hand.hard_total h + 10 * Z.of_nat j <= fst (Hand.value h).
Proof.
  destruct (value_closed_form h)
    as (high & Hle & Htotal & Hsoft & Hset & Hbest).
  exists high. split; [exact Hle|]. split; [exact Htotal|].
  split; [exact Hset|]. split.
  - rewrite Hsoft. destruct high; simpl; split; intros; try lia;
      try discriminate; reflexivity.
  - intros j Hj Hfit. specialize (Hbest j Hj Hfit). lia.
Qed.

Lemma base_total_permutation (l l' : list Card.t) :
  Permutation l l' -> Hand.base_total (Hand.mk l) = Hand.base_total (Hand.mk l').
Proof.
  unfold Hand.base_total. cbn [Hand.cards].
  induction 1; cbn [map fold_right]; lia.
Qed.

Lemma filter_length_permutation {A : Type} (f : A -> bool) (l l' : list A) :
  Permutation l l' -> length (filter f l) = length (filter f l').
Proof.
  induction 1 as [|x l l' _ IH|x y l|l l' l'' _ IH1 _ IH2]; cbn [filter].
  - reflexivity.
  - destruct (f x); cbn [length]; lia.
  - destruct (f x), (f y); reflexivity.
  - lia.
Qed.

(** X3. The order of the cards does not matter: two hands holding the same
    cards have the same total and softness, and are both blackjacks or
    neither. *)
Theorem Hand_value_permutation (h h' : Hand.t) :
  Permutation (Hand.cards h) (Hand.cards h') ->
  Hand.value h = Hand.value h' /\
  Hand.is_blackjack h = Hand.is_blackjack h'.
Proof.
  intros Hperm.
  assert (Hvalue : Hand.value h = Hand.value h').
  { unfold Hand.value. rewrite !scan_totals.
    destruct h as [l], h' as [l']. cbn [Hand.cards] in Hperm.
    rewrite (base_total_permutation _ _ Hperm).
    unfold Hand.ace_count. cbn [Hand.cards].
    rewrite (filter_length_permutation Card.is_ace _ _ Hperm). reflexivity. }
  split; [exact Hvalue|].
  unfold Hand.is_blackjack.
  rewrite Hvalue, (Permutation_length Hperm). reflexivity.
Qed.

(** X4. A blackjack is an ace with a card worth ten, in either order. *)
Theorem Hand_is_blackjack_ace_ten (h : Hand.t) :
  Hand.is_blackjack h = true <->
  exists c1 c2 : Card.t,
    Hand.cards h = [c1; c2] /\
    ((Card.is_ace c1 = true /\ Card.value c2 = 10) \/
     (Card.value c1 = 10 /\ Card.is_ace c2 = true)).
Proof.
  destruct h as [cs]. cbn [Hand.cards]. split.
  - unfold Hand.is_blackjack. cbn [Hand.cards].
    destruct cs as [|c1 [|c2 [|c3 cs]]]; try discriminate.
    intros H. exists c1, c2. split; [reflexivity|].
    destruct c1 as [[]], c2 as [[]]; vm_compute in H; try discriminate;
      vm_compute; auto.
  - intros (c1 & c2 & -> & Hcase).
    destruct c1 as [[]], c2 as [[]];
      vm_compute in Hcase; vm_compute;
      destruct Hcase as [[H1 H2]|[H1 H2]]; try discriminate; reflexivity.
Qed.

(** X5. A card adds at most its value to the total, and always raises the
    hard total; a hit on a soft hand cannot bust it. *)
Theorem Hand_add_card_total (h : Hand.t) (c : Card.t) :
  fst (Hand.value (Hand.add_card h c)) <= fst (Hand.value h) + Card.value c /\
  Hand.hard_total h < Hand.hard_total (Hand.add_card h c) /\
  (snd (Hand.value h) = true -> fst (Hand.value (Hand.add_card h c)) <= 21).
Proof.
  destruct (value_closed_form h) as (hi & Hle & Htotal & Hsoft & Hset & Hbest).
  destruct (value_closed_form (Hand.add_card h c))
    as (hi' & Hle' & Htotal' & _ & Hset' & _).
  pose proof (hard_total_add_card_eq h c) as Hhard.
  pose proof (ace_count_add_card h c) as Haces.
  pose proof (ace_count_le_hard_total h) as Hmin.
  assert (Hcard : 1 <= (if Card.is_ace c then 1 else Card.value c) <= 10 /\
                  (if Card.is_ace c then 1 else Card.value c) <= Card.value c /\
                  (Card.is_ace c = true -> Card.value c = 11)).
  { destruct c as [[]]; cbn; repeat split; try lia; discriminate. }
  destruct Hcard as (Hrange & Hbelow & Hace).
  rewrite Htotal', Htotal, Hhard, Hsoft.
  split; [|split; [lia|]].
  - destruct (Nat.le_gt_cases hi' hi) as [Hok|Hmore]; [lia|].
    destruct Hset' as [Hfit|Hz]; [|subst hi'; lia].
    rewrite Htotal', Hhard in Hfit.
    destruct (Nat.le_gt_cases hi' (Hand.ace_count h)) as [Hold|Hnew].
    + specialize (Hbest hi' Hold). lia.
    + destruct (Card.is_ace c); [|lia].
      specialize (Hace eq_refl). lia.
  - intros Hs. destruct hi as [|hi]; [discriminate|].
    destruct Hset as [Hfit|Hzero]; [|discriminate].
    destruct Hset' as [Hfit'|Hz]; [rewrite Htotal', Hhard in Hfit'; lia|subst hi'].
    rewrite Htotal in Hfit. rewrite Nat2Z.inj_succ in Hfit. lia.
Qed.

(** ** Ranks and their strings *)

(** X6. The thirteen ranks stand for the thirteen strings of [Deck.RANKS],
    in order and pairwise distinct; on each of them [Card.value], computed
    from the string as the source does, raises nothing and gives 11 for the
    ace, 10 for a face and the number otherwise, always between 2 and 11. *)
Theorem Card_value_of_ranks :
  map RankText.rank_str Deck.RANKS = RankText.RANKS_text /\
  NoDup RankText.RANKS_text /\
  (forall r : Rank, In r Deck.RANKS) /\
  (forall r : Rank,
      RankText.value_of_str (RankText.repr (Card.mk r)) =
      Some (Card.value (Card.mk r))) /\
  (forall c : Card.t, 2 <= Card.value c <= 11).
Proof.
  split; [reflexivity|]. split.
  - unfold RankText.RANKS_text.
    repeat (constructor;
            [cbn; intros H;
             repeat (destruct H as [H|H]; [discriminate|]); exact H|]).
    constructor.
  - split; [intros []; cbn; tauto|].
    split; [intros []; reflexivity|].
    intros [[]]; cbn; lia.
Qed.

(** ** What a rebuilt shoe holds *)

Lemma count_rank_block (r : Rank) :
  count_rank r (map Card.mk (list_mul Deck.RANKS 4)) = 4%nat.
Proof. destruct r; reflexivity. Qed.

Lemma count_rank_flat_map {A : Type} (r : Rank) (block : list Card.t)
  (l : list A) :
  count_rank r (flat_map (fun _ => block) l) =
  (count_rank r block * length l)%nat.
Proof.
  unfold count_rank.
  induction l as [|x l IH]; cbn [flat_map length]; [cbn; lia|].
  rewrite filter_app, length_app, IH. lia.
Qed.

Lemma count_rank_fresh (r : Rank) (n : Z) :
  count_rank r (Deck.fresh_cards n) = (4 * Z.to_nat n)%nat.
Proof.
  unfold Deck.fresh_cards.
  rewrite count_rank_flat_map, count_rank_block, length_seq. reflexivity.
Qed.

Section ShoeFacts.
Context {RS : RandomSource}.

(** X7. [Deck.reset] leaves a shoe of [52 * num_decks] cards that holds
    every rank [4 * num_decks] times, whatever it held before and however
    it is shuffled; with no deck or a negative count the shoe is empty. *)
Theorem Deck_reset_composition (d : Deck.t) :
  length (Deck.cards (Deck.reset d)) =
  (52 * Z.to_nat (Deck.num_decks d))%nat /\
  (forall r : Rank,
      count_rank r (Deck.cards (Deck.reset d)) =
      (4 * Z.to_nat (Deck.num_decks d))%nat) /\
  Deck.num_decks (Deck.reset d) = Deck.num_decks d /\
  (Deck.num_decks d <= 0 <-> Deck.cards (Deck.reset d) = []).
Proof.
  pose proof (reset_length d) as Hlen.
  split; [exact Hlen|]. split; [|split; [apply reset_num_decks|]].
  - intros r. unfold Deck.reset.
    pose proof (shuffle_permutes (Deck.random d)
                  (Deck.fresh_cards (Deck.num_decks d))) as Hperm.
    destruct (shuffle (Deck.random d) (Deck.fresh_cards (Deck.num_decks d)))
      as [cs g]. cbn [fst Deck.cards] in *.
    unfold count_rank.
    rewrite <- (filter_length_permutation _ _ _ Hperm).
    apply count_rank_fresh.
  - split.
    + intros Hnone. apply length_zero_iff_nil. rewrite Hlen. lia.
    + intros Hnil. rewrite Hnil in Hlen. cbn [length] in Hlen. lia.
Qed.

(** A draw from a shoe of at least one deck returns. *)
Lemma draw_returns (d : Deck.t) :
  1 <= Deck.num_decks d ->
  exists (c : Card.t) (d' : Deck.t),
    Deck.draw d = Return c d' /\ Deck.num_decks d' = Deck.num_decks d.
Proof.
  intros Hdecks.
  assert (Hpos : (0 < length (Deck.cards (drawn_from d)))%nat).
  { unfold drawn_from.
    destruct (Nat.ltb_spec (length (Deck.cards d)) 10) as [Hlow|Hhigh].
    - rewrite reset_length. lia.
    - lia. }
  destruct (pop_nonempty _ Hpos) as (c & rest & Hpop).
  assert (Hdraw : Deck.draw d =
                  Return c (Deck.mk rest (Deck.num_decks (drawn_from d))
                                    (Deck.random (drawn_from d)))).
  { unfold Deck.draw. fold (drawn_from d). rewrite Hpop. reflexivity. }
  exists c, (Deck.mk rest (Deck.num_decks (drawn_from d))
                     (Deck.random (drawn_from d))).
  split; [exact Hdraw|].
  exact (proj1 (proj2 (draw_return _ _ _ Hdraw))).
Qed.

(** X8. A shoe without decks that is down to fewer than ten cards cannot
    be drawn from: the reset throws the cards left away, the rebuilt shoe is
    empty and [Deck.draw] raises [IndexError]. *)
Theorem Deck_draw_without_decks (d : Deck.t) :
  Deck.num_decks d <= 0 ->
  (length (Deck.cards d) < 10)%nat ->
  Deck.draw d = Raised IndexError (Deck.reset d) /\
  Deck.cards (Deck.reset d) = [].
Proof.
  intros Hnone Hlow.
  assert (Hnil : Deck.cards (Deck.reset d) = []).
  { apply length_zero_iff_nil. rewrite reset_length. lia. }
  split; [|exact Hnil].
  unfold Deck.draw.
  destruct (Nat.ltb_spec (length (Deck.cards d)) 10) as [_|Hhigh]; [|lia].
  rewrite Hnil. reflexivity.
Qed.

End ShoeFacts.

Lemma Deck_draw_without_decks_run :
  Deck.num_decks deckless_shoe <= 0 /\
  (length (Deck.cards deckless_shoe) < 10)%nat /\
  Deck.draw deckless_shoe = Raised IndexError (Deck.reset deckless_shoe) /\
  Deck.cards (Deck.reset deckless_shoe) = [].
Proof.
  assert (Hnone : Deck.num_decks deckless_shoe <= 0) by (simpl; lia).
  assert (Hlow : (length (Deck.cards deckless_shoe) < 10)%nat)
    by (simpl; lia).
  split; [exact Hnone|]. split; [exact Hlow|].
  exact (@Deck_draw_without_decks CutSource deckless_shoe Hnone Hlow).
Defined.

(** ** The turns, on a shoe that can be refilled *)

(** The total of a bust hand is its hard total. *)
Lemma bust_total_is_hard (h : Hand.t) :
  21 < fst (Hand.value h) -> fst (Hand.value h) = Hand.hard_total h.
Proof.
  destruct (value_closed_form h) as (high & _ & Htotal & _ & Hset & _).
  intros Hbust. destruct Hset as [Hfit|Hzero]; [lia|].
  rewrite Htotal, Hzero. lia.
Qed.

(** A bust by one card on a hand of at most [limit] is by at most ten. *)
Lemma bust_after_hit (h : Hand.t) (c : Card.t) (limit : Z) :
  fst (Hand.value h) <= limit ->
  21 < fst (Hand.value (Hand.add_card h c)) ->
  fst (Hand.value (Hand.add_card h c)) <= limit + 10.
Proof.
  intros Hbefore Hbust.
  rewrite (bust_total_is_hard _ Hbust), hard_total_add_card_eq.
  pose proof (value_ge_hard_total h) as Hge.
  destruct c as [[]]; cbn [Card.is_ace Card.value Card.rank]; lia.
Qed.

Section TurnFacts.
Context {RS : RandomSource}.

(** Draws keep the number of decks. *)
Lemma draw_num_decks (d d' : Deck.t) (c : Card.t) :
  Deck.draw d = Return c d' -> Deck.num_decks d' = Deck.num_decks d.
Proof. intros H. exact (proj1 (proj2 (draw_return _ _ _ H))). Qed.

(** A draw from a shoe of at least one deck does not raise. *)
Lemma draw_no_raise (d d' : Deck.t) (e : exn) :
  1 <= Deck.num_decks d -> Deck.draw d <> Raised e d'.
Proof.
  intros Hdecks H. destruct (draw_returns d Hdecks) as (c & d1 & Hdraw & _).
  rewrite Hdraw in H. discriminate.
Qed.

(** What the player's loop returns, from a hand of at most 21. *)
Lemma player_plays_loop_outcome (fuel : nat) (s : Strategy) :
  forall (g g' : Game.t) (d d' : Deck.t) (b : bool),
    Game.player_plays_loop fuel s g d = Return (b, g') d' ->
    fst (Hand.value (Game.player_hand g)) <= 21 ->
    Deck.num_decks d' = Deck.num_decks d /\
    (exists hits : list Card.t,
        Hand.cards (Game.player_hand g') =
        Hand.cards (Game.player_hand g) ++ hits) /\
    (b = true ->
     exists (upcard : Card.t) (others : list Card.t),
       Hand.cards (Game.dealer_hand g') = upcard :: others /\
       should_hit s (fst (Hand.value (Game.player_hand g')))
                  (snd (Hand.value (Game.player_hand g')))
                  (Card.value upcard) = false) /\
    (b = false -> fst (Hand.value (Game.player_hand g')) <= 31).
Proof.
  induction fuel as [|fuel IH]; intros g g' d d' b; [discriminate|].
  cbn [Game.player_plays_loop].
  destruct (Hand.value (Game.player_hand g)) as [player_value is_soft]
    eqn:Hvalue.
  destruct (Hand.cards (Game.dealer_hand g)) as [|upcard others] eqn:Hup;
    [discriminate|].
  destruct (should_hit s player_value is_soft (Card.value upcard)) eqn:Hhit.
  - unfold bind.
    destruct (Deck.draw d) as [c d1|e1 d1|] eqn:Hdraw; try discriminate.
    destruct (Z.gtb_spec
                (fst (Hand.value (Game.player_hand (Game.hit_player g c))))
                21) as [Hbust|Hfit].
    + intros H Hstart. inversion H; subst b g' d'.
      split; [exact (draw_num_decks _ _ _ Hdraw)|].
      split; [exists [c]; reflexivity|]. split; [discriminate|].
      intros _. cbn [Game.hit_player Game.player_hand] in *.
      apply (bust_after_hit _ _ 21); [rewrite Hvalue; exact Hstart|].
      exact Hbust.
    + intros H _. apply IH in H; [|exact Hfit].
      destruct H as (Hdecks & (hits & Hhits) & Htrue & Hfalse).
      split; [rewrite Hdecks; exact (draw_num_decks _ _ _ Hdraw)|].
      split; [|split; assumption].
      exists (c :: hits). rewrite Hhits.
      cbn [Game.hit_player Game.player_hand Hand.add_card Hand.cards].
      rewrite <- app_assoc. reflexivity.
  - intros H _. inversion H; subst b g' d'.
    split; [reflexivity|].
    split; [exists []; rewrite app_nil_r; reflexivity|].
    split; [|discriminate].
    intros _. exists upcard, others. split; [exact Hup|].
    rewrite Hvalue. exact Hhit.
Qed.

(** With a dealer's card to look at and a shoe that can be refilled the
    player's loop raises nothing. *)
Lemma player_plays_loop_no_raise (fuel : nat) (s : Strategy) :
  forall (g : Game.t) (d d' : Deck.t) (e : exn),
    1 <= Deck.num_decks d ->
    Hand.cards (Game.dealer_hand g) <> [] ->
    Game.player_plays_loop fuel s g d <> Raised e d'.
Proof.
  induction fuel as [|fuel IH]; intros g d d' e Hdecks Hup; [discriminate|].
  cbn [Game.player_plays_loop].
  destruct (Hand.value (Game.player_hand g)) as [player_value is_soft].
  destruct (Hand.cards (Game.dealer_hand g)) as [|upcard others] eqn:Hcards;
    [exfalso; apply Hup; reflexivity|].
  destruct (should_hit s player_value is_soft (Card.value upcard));
    [|discriminate].
  unfold bind.
  destruct (Deck.draw d) as [c d1|e1 d1|] eqn:Hdraw; try discriminate.
  - destruct (fst (Hand.value (Game.player_hand (Game.hit_player g c)))
              >? 21); [discriminate|].
    apply IH.
    + rewrite (draw_num_decks _ _ _ Hdraw). exact Hdecks.
    + cbn [Game.hit_player Game.dealer_hand]. rewrite Hcards. discriminate.
  - exfalso. exact (draw_no_raise _ _ _ Hdecks Hdraw).
Qed.

(** What the dealer's loop returns. *)
Lemma dealer_plays_loop_outcome (fuel : nat) :
  forall (g g' : Game.t) (d d' : Deck.t),
    Game.dealer_plays_loop fuel g d = Return g' d' ->
    Deck.num_decks d' = Deck.num_decks d /\
    (exists drawn : list Card.t,
        Hand.cards (Game.dealer_hand g') =
        Hand.cards (Game.dealer_hand g) ++ drawn) /\
    (17 <= fst (Hand.value (Game.dealer_hand g)) -> g' = g /\ d' = d) /\
    (fst (Hand.value (Game.dealer_hand g)) < 17 ->
     fst (Hand.value (Game.dealer_hand g')) <= 26).
Proof.
  induction fuel as [|fuel IH]; intros g g' d d'; [discriminate|].
  cbn [Game.dealer_plays_loop].
  destruct (Z.ltb_spec (fst (Hand.value (Game.dealer_hand g))) 17)
    as [Hlow|Hhigh].
  - unfold bind.
    destruct (Deck.draw d) as [c d1|e1 d1|] eqn:Hdraw; try discriminate.
    intros H. pose proof (IH _ _ _ _ H) as (Hdecks & (drawn & Hdrawn) & Hstay & Hmore).
    split; [rewrite Hdecks; exact (draw_num_decks _ _ _ Hdraw)|].
    split.
    { exists (c :: drawn). rewrite Hdrawn.
      cbn [Game.hit_dealer Game.dealer_hand Hand.add_card Hand.cards].
      rewrite <- app_assoc. reflexivity. }
    split; [lia|]. intros _.
    destruct (Z.lt_ge_cases
                (fst (Hand.value (Game.dealer_hand (Game.hit_dealer g c))))
                17) as [Hagain|Hdone].
    + apply Hmore. exact Hagain.
    + destruct (Hstay Hdone) as (-> & _).
      cbn [Game.hit_dealer Game.dealer_hand] in *.
      destruct (Z.le_gt_cases
                  (fst (Hand.value (Hand.add_card (Game.dealer_hand g) c)))
                  21) as [Hfit|Hbust]; [lia|].
      apply (bust_after_hit _ _ 16); lia.
  - intros H. inversion H; subst g' d'.
    split; [reflexivity|].
    split; [exists []; rewrite app_nil_r; reflexivity|].
    split; [intros _; split; reflexivity|lia].
Qed.

Lemma dealer_plays_loop_no_raise (fuel : nat) :
  forall (g : Game.t) (d d' : Deck.t) (e : exn),
    1 <= Deck.num_decks d ->
    Game.dealer_plays_loop fuel g d <> Raised e d'.
Proof.
  induction fuel as [|fuel IH]; intros g d d' e Hdecks; [discriminate|].
  cbn [Game.dealer_plays_loop].
  destruct (fst (Hand.value (Game.dealer_hand g)) <? 17); [|discriminate].
  unfold bind.
  destruct (Deck.draw d) as [c d1|e1 d1|] eqn:Hdraw; try discriminate.
  - apply IH. rewrite (draw_num_decks _ _ _ Hdraw). exact Hdecks.
  - exfalso. exact (draw_no_raise _ _ _ Hdecks Hdraw).
Qed.

(** X9. Both loops of [Game] end, whatever the strategy and the shoe: the
    player's within 22 iterations and the dealer's within 18 tests, so that
    any larger bound on the iterations gives the very same result. *)
Theorem Game_loops_terminate (s : Strategy) (g : Game.t) (d : Deck.t)
  (extra : nat) :
  Game.player_plays s g d <> OutOfFuel /\
  Game.player_plays_loop (extra + 22) s g d = Game.player_plays s g d /\
  Game.dealer_plays g d <> OutOfFuel /\
  Game.dealer_plays_loop (extra + 18) g d = Game.dealer_plays g d.
Proof.
  split; [apply player_plays_total|]. split.
  - apply player_plays_loop_more. apply player_plays_total.
  - split; [apply dealer_plays_total|].
    apply dealer_plays_loop_more. apply dealer_plays_total.
Qed.

Lemma hand_after_none (h : Hand.t) (cs : list Card.t) :
  hand_after h 0 cs = h.
Proof.
  destruct h as [l]. unfold hand_after. cbn [firstn Hand.cards].
  rewrite app_nil_r. reflexivity.
Qed.

Lemma hand_after_next (h : Hand.t) (c : Card.t) (k : nat)
  (cs : list Card.t) :
  hand_after h (S k) (c :: cs) = hand_after (Hand.add_card h c) k cs.
Proof.
  unfold hand_after, Hand.add_card. cbn [firstn Hand.cards].
  rewrite <- app_assoc. reflexivity.
Qed.

Lemma draw_list_next (d d1 d' : Deck.t) (c : Card.t) (cs : list Card.t) :
  Deck.draw d = Return c d1 ->
  draw_list (length cs) d1 = Return cs d' ->
  draw_list (length (c :: cs)) d = Return (c :: cs) d'.
Proof.
  intros Hdraw Hrest. cbn [length draw_list]. unfold bind.
  rewrite Hdraw, Hrest. reflexivity.
Qed.

(** The hits of the player's loop are the cards at the top of the shoe, in
    the order drawn, and each was asked for on a hand within 21. *)
Lemma player_plays_loop_trace (fuel : nat) (s : Strategy)
  (upcard : Card.t) (others : list Card.t) :
  forall (g g' : Game.t) (d d' : Deck.t) (b : bool),
    Hand.cards (Game.dealer_hand g) = upcard :: others ->
    Game.player_plays_loop fuel s g d = Return (b, g') d' ->
    fst (Hand.value (Game.player_hand g)) <= 21 ->
    exists hits : list Card.t,
      draw_list (length hits) d = Return hits d' /\
      Hand.cards (Game.player_hand g') =
      Hand.cards (Game.player_hand g) ++ hits /\
      (forall k : nat,
          (k < length hits)%nat ->
          fst (Hand.value (hand_after (Game.player_hand g) k hits)) <= 21 /\
          should_hit s
            (fst (Hand.value (hand_after (Game.player_hand g) k hits)))
            (snd (Hand.value (hand_after (Game.player_hand g) k hits)))
            (Card.value upcard) = true) /\
      (b = false -> hits <> []).
Proof.
  induction fuel as [|fuel IH]; intros g g' d d' b Hup; [discriminate|].
  cbn [Game.player_plays_loop].
  destruct (Hand.value (Game.player_hand g)) as [player_value is_soft]
    eqn:Hvalue.
  rewrite Hup.
  destruct (should_hit s player_value is_soft (Card.value upcard)) eqn:Hhit.
  - unfold bind.
    destruct (Deck.draw d) as [c d1|e1 d1|] eqn:Hdraw; try discriminate.
    assert (Hfirst :
              fst (player_value, is_soft) <= 21 ->
              forall cs : list Card.t,
                fst (Hand.value (hand_after (Game.player_hand g) 0 cs))
                <= 21 /\
                should_hit s
                  (fst (Hand.value (hand_after (Game.player_hand g) 0 cs)))
                  (snd (Hand.value (hand_after (Game.player_hand g) 0 cs)))
                  (Card.value upcard) = true).
    { intros Hstart cs. rewrite hand_after_none, Hvalue.
      split; [exact Hstart|exact Hhit]. }
    destruct (Z.gtb_spec
                (fst (Hand.value (Game.player_hand (Game.hit_player g c))))
                21) as [Hbust|Hfit].
    + intros H Hstart. inversion H; subst b g' d'.
      exists [c]. split; [exact (draw_list_next _ _ _ c [] Hdraw eq_refl)|].
      split; [reflexivity|]. split; [|discriminate].
      intros k Hk. cbn [length] in Hk.
      replace k with 0%nat by lia. apply Hfirst. exact Hstart.
    + intros H Hstart.
      destruct (IH (Game.hit_player g c) g' d1 d' b Hup H Hfit)
        as (hits & Hdrawn & Hcards & Hasked & Hsome).
      exists (c :: hits).
      split; [exact (draw_list_next _ _ _ c hits Hdraw Hdrawn)|].
      split.
      { rewrite Hcards.
        cbn [Game.hit_player Game.player_hand Hand.add_card Hand.cards].
        rewrite <- app_assoc. reflexivity. }
      split; [|discriminate].
      intros [|k] Hk.
      * apply Hfirst. exact Hstart.
      * rewrite hand_after_next. apply (Hasked k).
        cbn [length] in Hk. lia.
  - intros H _. inversion H; subst b g' d'.
    exists []. split; [reflexivity|].
    split; [rewrite app_nil_r; reflexivity|].
    split; [|discriminate].
    intros k Hk. cbn [length] in Hk. lia.
Qed.

(** The cards of the dealer's loop are the cards at the top of the shoe,
    in the order drawn, and each was drawn on a total below 17. *)
Lemma dealer_plays_loop_trace (fuel : nat) :
  forall (g g' : Game.t) (d d' : Deck.t),
    Game.dealer_plays_loop fuel g d = Return g' d' ->
    exists drawn : list Card.t,
      draw_list (length drawn) d = Return drawn d' /\
      Hand.cards (Game.dealer_hand g') =
      Hand.cards (Game.dealer_hand g) ++ drawn /\
      forall k : nat,
        (k < length drawn)%nat ->
        fst (Hand.value (hand_after (Game.dealer_hand g) k drawn)) < 17.
Proof.
  induction fuel as [|fuel IH]; intros g g' d d'; [discriminate|].
  cbn [Game.dealer_plays_loop].
  destruct (Z.ltb_spec (fst (Hand.value (Game.dealer_hand g))) 17)
    as [Hlow|Hhigh].
  - unfold bind.
    destruct (Deck.draw d) as [c d1|e1 d1|] eqn:Hdraw; try discriminate.
    intros H.
    destruct (IH _ _ _ _ H) as (drawn & Hdrawn & Hcards & Hbelow).
    exists (c :: drawn).
    split; [exact (draw_list_next _ _ _ c drawn Hdraw Hdrawn)|].
    split.
    { rewrite Hcards.
      cbn [Game.hit_dealer Game.dealer_hand Hand.add_card Hand.cards].
      rewrite <- app_assoc. reflexivity. }
    intros [|k] Hk.
    + rewrite hand_after_none. exact Hlow.
    + rewrite hand_after_next. apply (Hbelow k). cbn [length] in Hk. lia.
  - intros H. inversion H; subst g' d'.
    exists []. split; [reflexivity|].
    split; [rewrite app_nil_r; reflexivity|].
    intros k Hk. cbn [length] in Hk. lia.
Qed.

(** X10. The player's turn on a hand of at most 21, against a dealer who
    shows a card, from a shoe of at least one deck: it returns, with the
    dealer's hand and the number of decks untouched.  The hits are the
    cards drawn from the shoe, one draw after the other, and the player
    holds the old cards followed by them; every hit was asked for by the
    strategy on a hand within 21.  When the flag is true the total is at
    most 21 and the strategy declines to hit on the final hand; when it is
    false there was a hit and the total is between 22 and 31. *)
Theorem player_plays_outcome (s : Strategy) (g : Game.t) (d : Deck.t)
  (upcard : Card.t) (others : list Card.t) :
  1 <= Deck.num_decks d ->
  Hand.cards (Game.dealer_hand g) = upcard :: others ->
  fst (Hand.value (Game.player_hand g)) <= 21 ->
  exists (b : bool) (g' : Game.t) (d' : Deck.t) (hits : list Card.t),
    Game.player_plays s g d = Return (b, g') d' /\
    draw_list (length hits) d = Return hits d' /\
    Deck.num_decks d' = Deck.num_decks d /\
    Game.dealer_hand g' = Game.dealer_hand g /\
    Hand.cards (Game.player_hand g') =
    Hand.cards (Game.player_hand g) ++ hits /\
    (forall k : nat,
        (k < length hits)%nat ->
        fst (Hand.value (hand_after (Game.player_hand g) k hits)) <= 21 /\
        should_hit s
          (fst (Hand.value (hand_after (Game.player_hand g) k hits)))
          (snd (Hand.value (hand_after (Game.player_hand g) k hits)))
          (Card.value upcard) = true) /\
    (b = true ->
     fst (Hand.value (Game.player_hand g')) <= 21 /\
     should_hit s (fst (Hand.value (Game.player_hand g')))
                (snd (Hand.value (Game.player_hand g')))
                (Card.value upcard) = false) /\
    (b = false ->
     hits <> [] /\ 22 <= fst (Hand.value (Game.player_hand g')) <= 31).
Proof.
  intros Hdecks Hup Hstart.
  assert (Hshown : Hand.cards (Game.dealer_hand g) <> [])
    by (rewrite Hup; discriminate).
  destruct (Game.player_plays s g d) as [[b g'] d'|e d'|] eqn:Hplay.
  - pose proof (player_plays_loop_return _ _ _ _ _ _ _ Hplay)
      as (Hdealer & Hfalse & Htrue).
    pose proof (player_plays_loop_outcome _ _ _ _ _ _ _ Hplay Hstart)
      as (Hsame & _ & Hstand & Hmax).
    destruct (player_plays_loop_trace _ _ _ _ _ _ _ _ _ Hup Hplay Hstart)
      as (hits & Hdrawn & Hcards & Hasked & Hsome).
    exists b, g', d', hits. split; [reflexivity|].
    split; [exact Hdrawn|]. split; [exact Hsame|].
    split; [exact Hdealer|]. split; [exact Hcards|].
    split; [exact Hasked|]. split.
    + intros Hb. split; [exact (Htrue Hb Hstart)|].
      destruct (Hstand Hb) as (up' & others' & Hup' & Hdecline).
      rewrite Hdealer, Hup in Hup'. inversion Hup'; subst up' others'.
      exact Hdecline.
    + intros Hb. split; [exact (Hsome Hb)|].
      specialize (Hfalse Hb). specialize (Hmax Hb). lia.
  - exfalso.
    exact (player_plays_loop_no_raise _ _ _ _ _ _ Hdecks Hshown Hplay).
  - exfalso. exact (player_plays_total _ _ _ Hplay).
Qed.

(** X11. With [BasicStrategy] a player who stands holds 17 to 21, and 18
    to 21 on a soft hand. *)
Theorem BasicStrategy_stands_on (g g' : Game.t) (d d' : Deck.t) :
  Game.player_plays BasicStrategy g d = Return (true, g') d' ->
  fst (Hand.value (Game.player_hand g)) <= 21 ->
  17 <= fst (Hand.value (Game.player_hand g')) <= 21 /\
  (snd (Hand.value (Game.player_hand g')) = true ->
   18 <= fst (Hand.value (Game.player_hand g'))).
Proof.
  intros Hplay Hstart.
  pose proof (player_plays_loop_return _ _ _ _ _ _ _ Hplay)
    as (_ & _ & Htrue).
  pose proof (player_plays_loop_outcome _ _ _ _ _ _ _ Hplay Hstart)
    as (_ & _ & Hstand & _).
  destruct (Hstand eq_refl) as (upcard & others & _ & Hhit).
  specialize (Htrue eq_refl Hstart).
  cbn [should_hit BasicStrategy] in Hhit.
  destruct (snd (Hand.value (Game.player_hand g')));
    apply Z.ltb_ge in Hhit; split; try lia; intros; try discriminate; lia.
Qed.

(** X12. The dealer's turn from a shoe of at least one deck returns, with
    the player's hand and the number of decks untouched.  The cards added
    are the cards drawn from the shoe, one draw after the other, each on a
    total below 17, and the dealer holds the old cards followed by them.
    The dealer ends on 17 or more; a dealer already there draws nothing,
    and one who had to draw ends on 26 at most. *)
Theorem dealer_plays_outcome (g : Game.t) (d : Deck.t) :
  1 <= Deck.num_decks d ->
  exists (g' : Game.t) (d' : Deck.t) (drawn : list Card.t),
    Game.dealer_plays g d = Return g' d' /\
    draw_list (length drawn) d = Return drawn d' /\
    Deck.num_decks d' = Deck.num_decks d /\
    Game.player_hand g' = Game.player_hand g /\
    Hand.cards (Game.dealer_hand g') =
    Hand.cards (Game.dealer_hand g) ++ drawn /\
    (forall k : nat,
        (k < length drawn)%nat ->
        fst (Hand.value (hand_after (Game.dealer_hand g) k drawn)) < 17) /\
    17 <= fst (Hand.value (Game.dealer_hand g')) /\
    (17 <= fst (Hand.value (Game.dealer_hand g)) ->
     drawn = [] /\ g' = g /\ d' = d) /\
    (fst (Hand.value (Game.dealer_hand g)) < 17 ->
     drawn <> [] /\ fst (Hand.value (Game.dealer_hand g')) <= 26).
Proof.
  intros Hdecks.
  destruct (Game.dealer_plays g d) as [g' d'|e d'|] eqn:Hplay.
  - pose proof (dealer_plays_loop_return _ _ _ _ _ Hplay) as (Hplayer & Hend).
    pose proof (dealer_plays_loop_outcome _ _ _ _ _ Hplay)
      as (Hsame & _ & Hstay & Hmax).
    destruct (dealer_plays_loop_trace _ _ _ _ _ Hplay)
      as (drawn & Hdrawn & Hcards & Hbelow).
    exists g', d', drawn. split; [reflexivity|].
    split; [exact Hdrawn|]. split; [exact Hsame|].
    split; [exact Hplayer|]. split; [exact Hcards|].
    split; [exact Hbelow|]. split; [exact Hend|]. split.
    + intros Hthere. destruct (Hstay Hthere) as (Hg & Hd).
      split; [|split; assumption].
      destruct drawn as [|c drawn]; [reflexivity|].
      exfalso. specialize (Hbelow 0%nat). rewrite hand_after_none in Hbelow.
      cbn [length] in Hbelow. lia.
    + intros Hlow. split; [|exact (Hmax Hlow)].
      intros Hnone. subst drawn. rewrite app_nil_r in Hcards.
      assert (Hhand : Game.dealer_hand g' = Game.dealer_hand g).
      { destruct (Game.dealer_hand g'), (Game.dealer_hand g).
        cbn [Hand.cards] in Hcards. rewrite Hcards. reflexivity. }
      rewrite Hhand in Hend. lia.
  - exfalso. exact (dealer_plays_loop_no_raise _ _ _ _ _ Hdecks Hplay).
  - exfalso. exact (dealer_plays_total _ _ Hplay).
Qed.

End TurnFacts.

(** ** Rounds on a shoe that can be refilled *)

Section RoundOutcomes.
Context {RS : RandomSource}.

(** The top card of a shoe of ten cards or more is drawn without a reset. *)
Lemma draw_top (below : list Card.t) (c : Card.t) (n : Z) (g : rng) :
  (9 <= length below)%nat ->
  Deck.draw (Deck.mk (below ++ [c]) n g) = Return c (Deck.mk below n g).
Proof.
  intros Hlen. unfold Deck.draw. cbn [Deck.cards].
  destruct (Nat.ltb_spec (length (below ++ [c])) 10) as [Hlow|_].
  - rewrite length_app in Hlow. cbn [length] in Hlow. lia.
  - cbn [Deck.cards Deck.num_decks Deck.random].
    rewrite pop_snoc. reflexivity.
Qed.

(** X13. Dealing from a shoe that keeps nine cards or more under its top
    four takes exactly those four, from the end of the list: the last and
    the third last go to the player, the second and the fourth last to the
    dealer, and the rest of the shoe is left as it was, not reshuffled. *)
Theorem deal_takes_top_four (g : Game.t) (below : list Card.t)
  (c1 c2 c3 c4 : Card.t) (n : Z) (r : rng) :
  (9 <= length below)%nat ->
  Game.deal g (Deck.mk (below ++ [c4; c3; c2; c1]) n r) =
  Return (Game.mk
            (Hand.mk (Hand.cards (Game.player_hand g) ++ [c1; c3]))
            (Hand.mk (Hand.cards (Game.dealer_hand g) ++ [c2; c4])))
         (Deck.mk below n r).
Proof.
  intros Hlen. unfold Game.deal, bind.
  change (below ++ [c4; c3; c2; c1])
    with (below ++ [c4] ++ [c3] ++ [c2] ++ [c1]).
  rewrite !app_assoc.
  rewrite draw_top by (rewrite !length_app; cbn [length]; lia).
  rewrite draw_top by (rewrite !length_app; cbn [length]; lia).
  rewrite draw_top by (rewrite !length_app; cbn [length]; lia).
  rewrite draw_top by exact Hlen.
  unfold ret, Game.hit_dealer, Game.hit_player, Hand.add_card.
  cbn [Game.player_hand Game.dealer_hand Hand.cards].
  rewrite <- !app_assoc. reflexivity.
Qed.

(** On a shoe of at least one deck the deal returns. *)
Lemma deal_returns (g : Game.t) (d : Deck.t) :
  1 <= Deck.num_decks d ->
  exists (g' : Game.t) (d' : Deck.t),
    Game.deal g d = Return g' d' /\ Deck.num_decks d' = Deck.num_decks d.
Proof.
  intros Hdecks. unfold Game.deal, bind.
  destruct (draw_returns d Hdecks) as (c1 & d1 & H1 & Hn1). rewrite H1.
  assert (Hd1 : 1 <= Deck.num_decks d1) by lia.
  destruct (draw_returns d1 Hd1) as (c2 & d2 & H2 & Hn2). rewrite H2.
  assert (Hd2 : 1 <= Deck.num_decks d2) by lia.
  destruct (draw_returns d2 Hd2) as (c3 & d3 & H3 & Hn3). rewrite H3.
  assert (Hd3 : 1 <= Deck.num_decks d3) by lia.
  destruct (draw_returns d3 Hd3) as (c4 & d4 & H4 & Hn4). rewrite H4.
  eexists _, d4. split; [reflexivity|]. lia.
Qed.

(** A round with a valid bet on a shoe of at least one deck returns, and
    leaves a shoe of as many decks. *)
Lemma play_hand_game_returns (s : Strategy) (bankroll : float)
  (d : Deck.t) :
  1 <= Deck.num_decks d ->
  invalid_bet (get_bet s bankroll) bankroll = false ->
  exists (g : Game.t) (new_bankroll payoff : float) (d' : Deck.t),
    play_hand_game s bankroll d = Return (g, (new_bankroll, payoff)) d' /\
    Deck.num_decks d' = Deck.num_decks d.
Proof.
  intros Hdecks Hvalid.
  destruct (deal_returns Game.new d Hdecks) as (g1 & d1 & Hdeal & Hn1).
  pose proof (deal_return _ _ _ _ Hdeal)
    as (c1 & c2 & c3 & c4 & _ & _ & _ & _ & _ & _ & _ & Hg1).
  change (Game.hit_dealer
            (Game.hit_player
               (Game.hit_dealer (Game.hit_player Game.new c1) c2) c3) c4)
    with (Game.mk (Hand.mk [c1; c3]) (Hand.mk [c2; c4])) in Hg1.
  assert (Hd1 : 1 <= Deck.num_decks d1) by lia.
  assert (Hup : Hand.cards (Game.dealer_hand g1) <> [])
    by (subst g1; discriminate).
  assert (Hstart : fst (Hand.value (Game.player_hand g1)) <= 21)
    by (subst g1; apply two_cards_at_most_21).
  unfold play_hand_game. rewrite Hvalid. unfold bind at 1. rewrite Hdeal.
  unfold bind at 1.
  destruct (Game.player_plays s g1 d1) as [[active g2] d2|e d2|] eqn:Hplay.
  - pose proof (player_plays_loop_outcome _ _ _ _ _ _ _ Hplay Hstart)
      as (Hn2 & _).
    unfold bind. destruct active.
    + assert (Hd2 : 1 <= Deck.num_decks d2) by lia.
      destruct (Game.dealer_plays g2 d2) as [g3 d3|e d3|] eqn:Hdealer.
      * pose proof (dealer_plays_loop_outcome _ _ _ _ _ Hdealer) as (Hn3 & _).
        eexists _, _, _, d3. split; [reflexivity|]. lia.
      * exfalso. exact (dealer_plays_loop_no_raise _ _ _ _ _ Hd2 Hdealer).
      * exfalso. exact (dealer_plays_total _ _ Hdealer).
    + eexists _, _, _, d2. split; [reflexivity|]. lia.
  - exfalso. exact (player_plays_loop_no_raise _ _ _ _ _ _ Hd1 Hup Hplay).
  - exfalso. exact (player_plays_total _ _ _ Hplay).
Qed.

(** X14. A round with a valid bet on a shoe of at least one deck always
    returns: no draw fails.  Both hands hold their two dealt cards or more,
    the player ends on 31 at most; a player who did not bust faces a dealer
    who stands on 17 to 26, and a player who did faces the two dealt cards
    alone. *)
Theorem play_hand_returns (s : Strategy) (bankroll : float) (d : Deck.t) :
  1 <= Deck.num_decks d ->
  invalid_bet (get_bet s bankroll) bankroll = false ->
  exists (g : Game.t) (new_bankroll payoff : float) (d' : Deck.t),
    play_hand_game s bankroll d = Return (g, (new_bankroll, payoff)) d' /\
    play_hand s bankroll d = Return (new_bankroll, payoff) d' /\
    Deck.num_decks d' = Deck.num_decks d /\
    (2 <= length (Hand.cards (Game.player_hand g)))%nat /\
    (2 <= length (Hand.cards (Game.dealer_hand g)))%nat /\
    fst (Hand.value (Game.player_hand g)) <= 31 /\
    (fst (Hand.value (Game.player_hand g)) <= 21 ->
     17 <= fst (Hand.value (Game.dealer_hand g)) <= 26) /\
    (21 < fst (Hand.value (Game.player_hand g)) ->
     length (Hand.cards (Game.dealer_hand g)) = 2%nat).
Proof.
  intros Hdecks Hvalid.
  destruct (play_hand_game_returns s bankroll d Hdecks Hvalid)
    as (g & nb & payoff & d' & Hround & Hsame).
  exists g, nb, payoff, d'. split; [exact Hround|].
  split; [rewrite play_hand_of_game, Hround; reflexivity|].
  split; [exact Hsame|].
  apply play_hand_game_return in Hround.
  destruct Hround as
    (_ & g1 & g2 & d1 & d2 & active & Hdeal & Hplayer & Hdealer & _ & _).
  apply deal_return in Hdeal.
  destruct Hdeal as (c1 & c2 & c3 & c4 & _ & _ & _ & _ & _ & _ & _ & Hg1).
  change (Game.hit_dealer
            (Game.hit_player
               (Game.hit_dealer (Game.hit_player Game.new c1) c2) c3) c4)
    with (Game.mk (Hand.mk [c1; c3]) (Hand.mk [c2; c4])) in Hg1.
  subst g1.
  pose proof (two_cards_at_most_21 c1 c3) as Hstart.
  pose proof (two_cards_at_most_21 c2 c4) as Hdealt.
  pose proof (player_plays_loop_return _ _ _ _ _ _ _ Hplayer)
    as (Hkeep & Hfalse & Htrue).
  pose proof (player_plays_loop_outcome _ _ _ _ _ _ _ Hplayer Hstart)
    as (_ & (hits & Hhits) & _ & Hmax).
  cbn [Game.player_hand Game.dealer_hand Hand.cards] in *.
  destruct active.
  - pose proof (dealer_plays_loop_return _ _ _ _ _ Hdealer)
      as (Hplayer' & Hend).
    pose proof (dealer_plays_loop_outcome _ _ _ _ _ Hdealer)
      as (_ & (drawn & Hdrawn) & Hstay & Hmore).
    specialize (Htrue eq_refl Hstart).
    rewrite Hplayer', Hdrawn, Hhits, Hkeep. cbn [Hand.cards].
    rewrite !length_app. cbn [length].
    split; [lia|]. split; [lia|]. split; [lia|]. split; [|lia].
    intros _. split; [exact Hend|].
    destruct (Z.lt_ge_cases (fst (Hand.value (Game.dealer_hand g2))) 17)
      as [Hlow|Hhigh]; [exact (Hmore Hlow)|].
    destruct (Hstay Hhigh) as (-> & _). rewrite Hkeep. lia.
  - unfold ret in Hdealer. inversion Hdealer; subst g2 d2.
    specialize (Hfalse eq_refl). specialize (Hmax eq_refl).
    rewrite Hhits, Hkeep. cbn [Hand.cards].
    rewrite !length_app. cbn [length].
    split; [lia|]. split; [lia|]. split; [lia|]. split; [lia|].
    intros _. reflexivity.
Qed.

End RoundOutcomes.

(** ** Whole simulations *)

Lemma SFcompare_refl (x : spec_float) :
  SFcompare x x = Some Eq \/ SFcompare x x = None.
Proof.
  destruct x as [s|s| |s m e]; cbn; auto.
  - destruct s; auto.
  - rewrite Z.compare_refl.
    change (PosDef.Pos.compare_cont Eq m m) with (Pos.compare m m).
    rewrite Pos.compare_refl. destruct s; auto.
Qed.

Lemma float_ltb_irrefl (x : float) : (x <? x)%float = false.
Proof.
  rewrite ltb_spec. unfold SFltb.
  destruct (SFcompare_refl (Prim2SF x)) as [H|H]; rewrite H; reflexivity.
Qed.

Lemma float_eqb_leb (x y : float) :
  (x =? y)%float = true -> (x <=? y)%float = true.
Proof.
  rewrite eqb_spec, leb_spec. unfold SFeqb, SFleb.
  destruct (SFcompare (Prim2SF x) (Prim2SF y)) as [[]|];
    intros; try discriminate; reflexivity.
Qed.

(** The bet of [BasicStrategy] passes the check of [play_hand] on every
    bankroll the loop of [simulate] lets through. *)
Lemma basic_bet_valid (bankroll : float) :
  (bankroll <=? 0)%float = false ->
  invalid_bet (get_bet BasicStrategy bankroll) bankroll = false.
Proof.
  intros Hpos. cbn [get_bet BasicStrategy]. unfold py_min, invalid_bet.
  destruct (bankroll <? 10)%float eqn:Hlt.
  - rewrite Hpos, float_ltb_irrefl. reflexivity.
  - rewrite Hlt. reflexivity.
Qed.

Section SimulationOutcomes.
Context {RS : RandomSource}.

Lemma simulate_loop_basic_returns (n : nat) :
  forall (st : Loop.t) (d : Deck.t),
    1 <= Deck.num_decks d ->
    exists (st' : Loop.t) (d' : Deck.t),
      simulate_loop n BasicStrategy st d = Return st' d' /\
      Deck.num_decks d' = Deck.num_decks d.
Proof.
  induction n as [|n IH]; intros st d Hdecks; cbn [simulate_loop].
  - exists st, d. split; reflexivity.
  - destruct (Loop.bankroll st <=? 0)%float eqn:Hbroke.
    + exists st, d. split; reflexivity.
    + destruct (play_hand_game_returns BasicStrategy (Loop.bankroll st) d
                  Hdecks (basic_bet_valid _ Hbroke))
        as (g & nb & payoff & d1 & Hround & Hsame).
      unfold bind. rewrite play_hand_of_game, Hround. cbn [snd].
      assert (Hd1 : 1 <= Deck.num_decks d1) by lia.
      destruct (IH (Loop.record_payoff st nb payoff) d1 Hd1)
        as (st' & d' & Hloop & Hsame').
      exists st', d'. split; [exact Hloop|]. lia.
Qed.

Lemma init_num_decks (n : Z) (g : rng) :
  Deck.num_decks (Deck.init n g) = n.
Proof. unfold Deck.init. rewrite reset_num_decks. reflexivity. Qed.

(** X15. With [BasicStrategy], a count of hands other than zero, at least
    one deck and a starting bankroll other than zero, [simulate] returns a
    summary: no bet is invalid, no draw fails and nothing divides by zero. *)
Theorem simulate_basic_returns (num_hands num_decks : Z)
  (starting_bankroll : float) (g : rng) :
  num_hands <> 0 ->
  1 <= num_decks ->
  (starting_bankroll =? 0)%float = false ->
  exists (r : Summary.t) (d' : Deck.t),
    simulate BasicStrategy num_hands num_decks starting_bankroll g =
    Return r d' /\
    Deck.num_decks d' = num_decks.
Proof.
  intros Hhands Hdecks Hbank. unfold simulate.
  assert (Hinit : 1 <= Deck.num_decks (Deck.init num_decks g))
    by (rewrite init_num_decks; exact Hdecks).
  destruct (simulate_loop_basic_returns (Z.to_nat num_hands)
              (Loop.mk starting_bankroll 0 0 0) _ Hinit)
    as (st & d' & Hloop & Hsame).
  unfold bind at 1. rewrite Hloop.
  unfold summarize, float_div, int_div, bind, raise, ret.
  rewrite Hbank.
  destruct (Z.eqb_spec num_hands 0) as [Hzero|_]; [contradiction|].
  eexists _, d'. split; [reflexivity|].
  rewrite Hsame. apply init_num_decks.
Qed.

(** The counters never decrease. *)
Lemma simulate_loop_counters (n : nat) (s : Strategy) :
  forall (st st' : Loop.t) (d d' : Deck.t),
    simulate_loop n s st d = Return st' d' ->
    Loop.wins st <= Loop.wins st' /\
    Loop.losses st <= Loop.losses st' /\
    Loop.pushes st <= Loop.pushes st'.
Proof.
  induction n as [|n IH]; intros st st' d d'; cbn [simulate_loop].
  - intros H; inversion H; subst. lia.
  - destruct (Loop.bankroll st <=? 0)%float.
    + intros H; inversion H; subst. lia.
    + unfold bind.
      destruct (play_hand s (Loop.bankroll st) d) as [[nb payoff] d1|e d1|];
        try discriminate.
      intros H. apply IH in H. revert H. unfold Loop.record_payoff.
      destruct (0 <? payoff)%float; [cbn; lia|].
      destruct (payoff <? 0)%float; cbn; lia.
Qed.

(** Either every iteration played a hand or the loop ended broke. *)
Lemma simulate_loop_played_or_broke (n : nat) (s : Strategy) :
  forall (st st' : Loop.t) (d d' : Deck.t),
    simulate_loop n s st d = Return st' d' ->
    Loop.hands_counted st' = Loop.hands_counted st + Z.of_nat n \/
    (Loop.bankroll st' <=? 0)%float = true.
Proof.
  induction n as [|n IH]; intros st st' d d'; cbn [simulate_loop].
  - intros H; inversion H; subst. left. lia.
  - destruct (Loop.bankroll st <=? 0)%float eqn:Hbroke.
    + intros H; inversion H; subst. right. exact Hbroke.
    + unfold bind.
      destruct (play_hand s (Loop.bankroll st) d) as [[nb payoff] d1|e d1|];
        try discriminate.
      intros H. apply IH in H. rewrite record_payoff_counts in H.
      destruct H as [H|H]; [left; lia|right; exact H].
Qed.

(** What a returned summary was computed from. *)
Lemma simulate_return (s : Strategy) (num_hands num_decks : Z)
  (starting_bankroll : float) (g : rng) (r : Summary.t) (d' : Deck.t) :
  simulate s num_hands num_decks starting_bankroll g = Return r d' ->
  exists st : Loop.t,
    simulate_loop (Z.to_nat num_hands) s (Loop.mk starting_bankroll 0 0 0)
                  (Deck.init num_decks g) = Return st d' /\
    Summary.final_bankroll r = Loop.bankroll st /\
    Summary.wins r = Loop.wins st /\
    Summary.losses r = Loop.losses st /\
    Summary.pushes r = Loop.pushes st /\
    num_hands <> 0 /\
    (starting_bankroll =? 0)%float = false.
Proof.
  unfold simulate. unfold bind at 1.
  destruct (simulate_loop _ _ _ _) as [st d1|e d1|]; try discriminate.
  unfold summarize, float_div, int_div, bind, raise, ret.
  destruct (starting_bankroll =? 0)%float; [discriminate|].
  destruct (Z.eqb_spec num_hands 0) as [Hzero|Hhands]; [discriminate|].
  intros H; inversion H; subst; cbn.
  exists st. repeat (split; [reflexivity|]). split; [exact Hhands|reflexivity].
Qed.

(** X16. In every summary [simulate] returns the three counters are not
    negative and add up to [num_hands] at most (to nothing when
    [num_hands] is negative); they add up to exactly the hands asked for
    unless the final bankroll is zero or less. *)
Theorem simulate_counters (s : Strategy) (num_hands num_decks : Z)
  (starting_bankroll : float) (g : rng) (r : Summary.t) (d' : Deck.t) :
  simulate s num_hands num_decks starting_bankroll g = Return r d' ->
  0 <= Summary.wins r /\ 0 <= Summary.losses r /\ 0 <= Summary.pushes r /\
  Summary.wins r + Summary.losses r + Summary.pushes r <= Z.max 0 num_hands /\
  (Summary.wins r + Summary.losses r + Summary.pushes r = Z.max 0 num_hands \/
   (Summary.final_bankroll r <=? 0)%float = true).
Proof.
  intros Hsim.
  destruct (simulate_return _ _ _ _ _ _ _ Hsim)
    as (st & Hloop & -> & -> & -> & -> & _ & _).
  pose proof (simulate_loop_counters _ _ _ _ _ _ Hloop) as Hmono.
  pose proof (simulate_loop_counts _ _ _ _ _ _ Hloop) as Hcount.
  pose proof (simulate_loop_played_or_broke _ _ _ _ _ _ Hloop) as Hall.
  unfold Loop.hands_counted in *.
  cbn [Loop.wins Loop.losses Loop.pushes] in *.
  repeat split; try lia.
  destruct Hall as [Hall|Hbroke]; [left; lia|right; exact Hbroke].
Qed.

(** X17. A negative count of hands is played as none, without the
    division error of a count of zero: the summary has the starting
    bankroll for final bankroll and three counters at zero, and the shoe
    is the one built at the start. *)
Theorem simulate_negative_hands (s : Strategy) (num_hands num_decks : Z)
  (starting_bankroll : float) (g : rng) :
  num_hands < 0 ->
  (starting_bankroll =? 0)%float = false ->
  exists r : Summary.t,
    simulate s num_hands num_decks starting_bankroll g =
    Return r (Deck.init num_decks g) /\
    Summary.final_bankroll r = starting_bankroll /\
    Summary.wins r = 0 /\ Summary.losses r = 0 /\ Summary.pushes r = 0.
Proof.
  intros Hneg Hbank. unfold simulate.
  replace (Z.to_nat num_hands) with 0%nat by lia.
  cbn [simulate_loop]. unfold bind at 1. unfold ret at 1.
  unfold summarize, float_div, int_div, bind, raise, ret.
  rewrite Hbank.
  destruct (Z.eqb_spec num_hands 0) as [Hzero|_]; [lia|].
  eexists. split; [reflexivity|]. cbn. repeat split; reflexivity.
Qed.

(** X18. A starting bankroll of zero, of either sign, makes [simulate]
    raise [ZeroDivisionError] for every count of hands: the loop plays
    nothing and the return on the bankroll divides by it. *)
Theorem simulate_zero_bankroll_raises (s : Strategy)
  (num_hands num_decks : Z) (starting_bankroll : float) (g : rng) :
  (starting_bankroll =? 0)%float = true ->
  simulate s num_hands num_decks starting_bankroll g =
  Raised ZeroDivisionError (Deck.init num_decks g).
Proof.
  intros Hzero. unfold simulate. unfold bind at 1.
  rewrite simulate_loop_broke
    by (cbn [Loop.bankroll]; apply float_eqb_leb; exact Hzero).
  unfold summarize, float_div, bind, raise. cbn [Loop.bankroll].
  rewrite Hzero. reflexivity.
Qed.

(** X19. The invalid-bet error of the first hand reaches the caller of
    [simulate]: with a hand to play and a bankroll above zero, a strategy
    whose first bet is at most zero or above the bankroll makes [simulate]
    raise [ValueError] with that bet, before any card is drawn. *)
Theorem simulate_invalid_bet_raises (s : Strategy) (num_hands num_decks : Z)
  (starting_bankroll : float) (g : rng) :
  1 <= num_hands ->
  (starting_bankroll <=? 0)%float = false ->
  invalid_bet (get_bet s starting_bankroll) starting_bankroll = true ->
  simulate s num_hands num_decks starting_bankroll g =
  Raised (ValueError (get_bet s starting_bankroll)) (Deck.init num_decks g).
Proof.
  intros Hhands Hbank Hbad. unfold simulate.
  destruct (Z.to_nat num_hands) as [|n] eqn:Hn; [lia|].
  cbn [simulate_loop Loop.bankroll]. rewrite Hbank.
  unfold bind at 1. unfold bind at 1.
  rewrite play_hand_of_game. unfold play_hand_game. rewrite Hbad.
  reflexivity.
Qed.

End SimulationOutcomes.

(** ** Further runs of the program *)

(** Ace then king, king then ace: the same blackjack. *)
Lemma Hand_value_permutation_run :
  Permutation [Card.mk RA; Card.mk RK] [Card.mk RK; Card.mk RA] /\
  Hand.value (Hand.mk [Card.mk RA; Card.mk RK]) =
  Hand.value (Hand.mk [Card.mk RK; Card.mk RA]) /\
  Hand.is_blackjack (Hand.mk [Card.mk RA; Card.mk RK]) =
  Hand.is_blackjack (Hand.mk [Card.mk RK; Card.mk RA]).
Proof.
  assert (Hperm : Permutation [Card.mk RA; Card.mk RK]
                              [Card.mk RK; Card.mk RA])
    by apply perm_swap.
  split; [exact Hperm|].
  exact (Hand_value_permutation (Hand.mk [Card.mk RA; Card.mk RK])
           (Hand.mk [Card.mk RK; Card.mk RA]) Hperm).
Defined.

(** Nine against a ten: the player hits once, draws the ten on top of the
    shoe and stands on nineteen. *)
Lemma player_plays_outcome_run :
  1 <= Deck.num_decks win_shoe /\
  Hand.cards (Game.dealer_hand nine_game) = [Card.mk R10; Card.mk R7] /\
  fst (Hand.value (Game.player_hand nine_game)) <= 21 /\
  Game.player_plays BasicStrategy nine_game win_shoe =
  Return (true, nineteen_game) win_shoe_hit /\
  draw_list 1 win_shoe = Return [Card.mk R10] win_shoe_hit /\
  exists (b : bool) (g' : Game.t) (d' : Deck.t) (hits : list Card.t),
    Game.player_plays BasicStrategy nine_game win_shoe = Return (b, g') d' /\
    draw_list (length hits) win_shoe = Return hits d' /\
    Deck.num_decks d' = Deck.num_decks win_shoe /\
    Game.dealer_hand g' = Game.dealer_hand nine_game /\
    Hand.cards (Game.player_hand g') =
    Hand.cards (Game.player_hand nine_game) ++ hits /\
    (forall k : nat,
        (k < length hits)%nat ->
        fst (Hand.value (hand_after (Game.player_hand nine_game) k hits))
        <= 21 /\
        should_hit BasicStrategy
          (fst (Hand.value (hand_after (Game.player_hand nine_game) k hits)))
          (snd (Hand.value (hand_after (Game.player_hand nine_game) k hits)))
          (Card.value (Card.mk R10)) = true) /\
    (b = true ->
     fst (Hand.value (Game.player_hand g')) <= 21 /\
     should_hit BasicStrategy (fst (Hand.value (Game.player_hand g')))
                (snd (Hand.value (Game.player_hand g')))
                (Card.value (Card.mk R10)) = false) /\
    (b = false ->
     hits <> [] /\ 22 <= fst (Hand.value (Game.player_hand g')) <= 31).
Proof.
  assert (Hdecks : 1 <= Deck.num_decks win_shoe) by (simpl; lia).
  assert (Hup : Hand.cards (Game.dealer_hand nine_game) =
                [Card.mk R10; Card.mk R7]) by reflexivity.
  assert (Hstart : fst (Hand.value (Game.player_hand nine_game)) <= 21)
    by (vm_compute; discriminate).
  split; [exact Hdecks|]. split; [exact Hup|]. split; [exact Hstart|].
  split; [vm_compute; reflexivity|].
  split; [vm_compute; reflexivity|].
  exact (@player_plays_outcome CutSource BasicStrategy nine_game win_shoe
           (Card.mk R10) [Card.mk R7] Hdecks Hup Hstart).
Defined.

Lemma BasicStrategy_stands_on_run :
  Game.player_plays BasicStrategy nine_game win_shoe =
  Return (true, nineteen_game) win_shoe_hit /\
  fst (Hand.value (Game.player_hand nine_game)) <= 21 /\
  17 <= fst (Hand.value (Game.player_hand nineteen_game)) <= 21 /\
  (snd (Hand.value (Game.player_hand nineteen_game)) = true ->
   18 <= fst (Hand.value (Game.player_hand nineteen_game))).
Proof.
  assert (Hplay : Game.player_plays BasicStrategy nine_game win_shoe =
                  Return (true, nineteen_game) win_shoe_hit)
    by (vm_compute; reflexivity).
  assert (Hstart : fst (Hand.value (Game.player_hand nine_game)) <= 21)
    by (vm_compute; discriminate).
  split; [exact Hplay|]. split; [exact Hstart|].
  exact (@BasicStrategy_stands_on CutSource nine_game nineteen_game
           win_shoe win_shoe_hit Hplay Hstart).
Defined.

(** The dealer on sixteen draws the ten on top of the shoe and ends on
    twenty-six. *)
Lemma dealer_plays_outcome_run :
  1 <= Deck.num_decks win_shoe /\
  Game.dealer_plays dealer_sixteen_game win_shoe =
  Return dealer_bust_game win_shoe_hit /\
  draw_list 1 win_shoe = Return [Card.mk R10] win_shoe_hit /\
  fst (Hand.value (Game.dealer_hand dealer_bust_game)) = 26 /\
  exists (g' : Game.t) (d' : Deck.t) (drawn : list Card.t),
    Game.dealer_plays dealer_sixteen_game win_shoe = Return g' d' /\
    draw_list (length drawn) win_shoe = Return drawn d' /\
    Deck.num_decks d' = Deck.num_decks win_shoe /\
    Game.player_hand g' = Game.player_hand dealer_sixteen_game /\
    Hand.cards (Game.dealer_hand g') =
    Hand.cards (Game.dealer_hand dealer_sixteen_game) ++ drawn /\
    (forall k : nat,
        (k < length drawn)%nat ->
        fst (Hand.value
               (hand_after (Game.dealer_hand dealer_sixteen_game) k drawn))
        < 17) /\
    17 <= fst (Hand.value (Game.dealer_hand g')) /\
    (17 <= fst (Hand.value (Game.dealer_hand dealer_sixteen_game)) ->
     drawn = [] /\ g' = dealer_sixteen_game /\ d' = win_shoe) /\
    (fst (Hand.value (Game.dealer_hand dealer_sixteen_game)) < 17 ->
     drawn <> [] /\ fst (Hand.value (Game.dealer_hand g')) <= 26).
Proof.
  assert (Hdecks : 1 <= Deck.num_decks win_shoe) by (simpl; lia).
  split; [exact Hdecks|]. split; [vm_compute; reflexivity|].
  split; [vm_compute; reflexivity|]. split; [reflexivity|].
  exact (@dealer_plays_outcome CutSource dealer_sixteen_game win_shoe Hdecks).
Defined.

(** Dealing from [win_shoe]: its ten lower cards stay. *)
Lemma deal_takes_top_four_run :
  (9 <= length (Deck.cards shoe_left))%nat /\
  Game.deal Game.new win_shoe = Return win_game shoe_left.
Proof.
  assert (Hlen : (9 <= length (Deck.cards shoe_left))%nat)
    by (simpl; lia).
  split; [exact Hlen|].
  exact (@deal_takes_top_four CutSource Game.new (Deck.cards shoe_left)
           (Card.mk R10) (Card.mk R10) (Card.mk R10) (Card.mk R8)
           1 0%nat Hlen).
Defined.

Lemma play_hand_returns_run :
  1 <= Deck.num_decks win_shoe /\
  invalid_bet (get_bet BasicStrategy 10000) 10000 = false /\
  play_hand_game BasicStrategy 10000 win_shoe =
  Return (win_game, (10000%float, 10%float)) shoe_left /\
  exists (g : Game.t) (new_bankroll payoff : float) (d' : Deck.t),
    play_hand_game BasicStrategy 10000 win_shoe =
    Return (g, (new_bankroll, payoff)) d' /\
    play_hand BasicStrategy 10000 win_shoe = Return (new_bankroll, payoff) d' /\
    Deck.num_decks d' = Deck.num_decks win_shoe /\
    (2 <= length (Hand.cards (Game.player_hand g)))%nat /\
    (2 <= length (Hand.cards (Game.dealer_hand g)))%nat /\
    fst (Hand.value (Game.player_hand g)) <= 31 /\
    (fst (Hand.value (Game.player_hand g)) <= 21 ->
     17 <= fst (Hand.value (Game.dealer_hand g)) <= 26) /\
    (21 < fst (Hand.value (Game.player_hand g)) ->
     length (Hand.cards (Game.dealer_hand g)) = 2%nat).
Proof.
  assert (Hdecks : 1 <= Deck.num_decks win_shoe) by (simpl; lia).
  assert (Hvalid : invalid_bet (get_bet BasicStrategy 10000) 10000 = false)
    by reflexivity.
  split; [exact Hdecks|]. split; [exact Hvalid|].
  split; [vm_compute; reflexivity|].
  exact (@play_hand_returns CutSource BasicStrategy 10000 win_shoe
           Hdecks Hvalid).
Defined.

Lemma simulate_basic_returns_run :
  3 <> 0 /\ 1 <= 1 /\ (10 =? 0)%float = false /\
  simulate BasicStrategy 3 1 10 (1%nat : @rng CutSource) =
  Return (Summary.mk (-10) (-20) (-200) 0 1 0 0) first_shoe_dealt /\
  exists (r : Summary.t) (d' : Deck.t),
    simulate BasicStrategy 3 1 10 (1%nat : @rng CutSource) = Return r d' /\
    Deck.num_decks d' = 1.
Proof.
  assert (Hhands : 3 <> 0) by lia.
  assert (Hdecks : 1 <= 1) by lia.
  assert (Hbank : (10 =? 0)%float = false) by reflexivity.
  split; [exact Hhands|]. split; [exact Hdecks|]. split; [exact Hbank|].
  split; [vm_compute; reflexivity|].
  exact (@simulate_basic_returns CutSource 3 1 10 1%nat Hhands Hdecks Hbank).
Defined.

(** One hand counted of three asked for, on a final bankroll of -10.0. *)
Lemma simulate_counters_run :
  simulate BasicStrategy 3 1 10 (1%nat : @rng CutSource) =
  Return (Summary.mk (-10) (-20) (-200) 0 1 0 0) first_shoe_dealt /\
  0 <= 0 /\ 0 <= 1 /\ 0 <= 0 /\ 0 + 1 + 0 <= Z.max 0 3 /\
  (0 + 1 + 0 = Z.max 0 3 \/ (-10 <=? 0)%float = true).
Proof.
  assert (Hsim : simulate BasicStrategy 3 1 10 (1%nat : @rng CutSource) =
                 Return (Summary.mk (-10) (-20) (-200) 0 1 0 0)
                        first_shoe_dealt)
    by (vm_compute; reflexivity).
  split; [exact Hsim|].
  exact (@simulate_counters CutSource BasicStrategy 3 1 10 1%nat
           (Summary.mk (-10) (-20) (-200) 0 1 0 0) first_shoe_dealt Hsim).
Defined.

Lemma simulate_negative_hands_run :
  -5 < 0 /\ (10000 =? 0)%float = false /\
  exists r : Summary.t,
    simulate BasicStrategy (-5) 1 10000 (0%nat : @rng CutSource) =
    Return r (Deck.init 1 0%nat) /\
    Summary.final_bankroll r = 10000%float /\
    Summary.wins r = 0 /\ Summary.losses r = 0 /\ Summary.pushes r = 0.
Proof.
  assert (Hneg : -5 < 0) by lia.
  assert (Hbank : (10000 =? 0)%float = false) by reflexivity.
  split; [exact Hneg|]. split; [exact Hbank|].
  exact (@simulate_negative_hands CutSource BasicStrategy (-5) 1 10000
           0%nat Hneg Hbank).
Defined.

Lemma simulate_zero_bankroll_raises_run :
  (0 =? 0)%float = true /\
  simulate BasicStrategy 100 1 0 (0%nat : @rng CutSource) =
  Raised ZeroDivisionError (Deck.init 1 0%nat).
Proof.
  assert (Hzero : (0 =? 0)%float = true) by reflexivity.
  split; [exact Hzero|].
  exact (@simulate_zero_bankroll_raises CutSource BasicStrategy 100 1 0
           0%nat Hzero).
Defined.

(** A bet of two tenths on a bankroll of one tenth. *)
Lemma simulate_invalid_bet_raises_run :
  1 <= 5 /\ (1 / 10 <=? 0)%float = false /\
  invalid_bet (get_bet FifthBets (1 / 10)) (1 / 10) = true /\
  simulate FifthBets 5 1 (1 / 10) (0%nat : @rng CutSource) =
  Raised (ValueError (get_bet FifthBets (1 / 10))) (Deck.init 1 0%nat).
Proof.
  assert (Hhands : 1 <= 5) by lia.
  assert (Hbank : (1 / 10 <=? 0)%float = false) by reflexivity.
  assert (Hbad : invalid_bet (get_bet FifthBets (1 / 10)) (1 / 10) = true)
    by reflexivity.
  split; [exact Hhands|]. split; [exact Hbank|]. split; [exact Hbad|].
  exact (@simulate_invalid_bet_raises CutSource FifthBets 5 1 (1 / 10)
           0%nat Hhands Hbank Hbad).
Defined.

(** ** Blackjacks at settlement, and the provided strategy going bust *)

(** X20. A player's blackjack is never lost: it pays one and a half times
    the bet, or nothing against a dealer's blackjack.  A dealer's blackjack
    is never beaten: the player loses the bet, even on 21 or when the hand
    could still be played, or gets nothing with a blackjack too. *)
Theorem get_result_blackjacks (g : Game.t) (bet : float) :
  (Hand.is_blackjack (Game.player_hand g) = true ->
   Game.get_result g bet =
   if Hand.is_blackjack (Game.dealer_hand g) then 0%float
   else (bet * 1.5)%float) /\
  (Hand.is_blackjack (Game.dealer_hand g) = true ->
   fst (Hand.value (Game.player_hand g)) <= 21 ->
   Game.get_result g bet =
   if Hand.is_blackjack (Game.player_hand g) then 0%float
   else (- bet)%float).
Proof.
  unfold Game.get_result. split.
  - intros Hbj. rewrite Hbj.
    assert (Htotal : fst (Hand.value (Game.player_hand g)) = 21).
    { unfold Hand.is_blackjack in Hbj. apply andb_true_iff in Hbj.
      apply Z.eqb_eq. exact (proj2 Hbj). }
    rewrite Htotal. cbn [Z.gtb Z.compare Pos.compare Pos.compare_cont].
    destruct (Hand.is_blackjack (Game.dealer_hand g)); reflexivity.
  - intros Hbj Hfit. rewrite Hbj.
    destruct (Z.gtb_spec (fst (Hand.value (Game.player_hand g))) 21);
      [lia|].
    destruct (Hand.is_blackjack (Game.player_hand g)); reflexivity.
Qed.

(** A hit on a soft hand does not bust it. *)
Lemma soft_hit_fits (h : Hand.t) (c : Card.t) :
  snd (Hand.value h) = true -> fst (Hand.value (Hand.add_card h c)) <= 21.
Proof.
  intros Hsoft.
  destruct (Z.le_gt_cases (fst (Hand.value (Hand.add_card h c))) 21)
    as [Hfit|Hbust]; [exact Hfit|].
  rewrite (bust_total_is_hard _ Hbust), hard_total_add_card_eq.
  destruct (value_closed_form h) as (hi & _ & Htotal & Hs & Hset & _).
  rewrite Hs in Hsoft. destruct hi as [|hi]; [discriminate|].
  destruct Hset as [Hle|Hzero]; [|discriminate].
  rewrite Htotal, Nat2Z.inj_succ in Hle.
  destruct c as [[]]; cbn [Card.is_ace Card.value Card.rank]; lia.
Qed.

Section BasicStrategyFacts.
Context {RS : RandomSource}.

Lemma basic_player_bust_bound (fuel : nat) :
  forall (g g' : Game.t) (d d' : Deck.t),
    Game.player_plays_loop fuel BasicStrategy g d = Return (false, g') d' ->
    fst (Hand.value (Game.player_hand g')) <= 26.
Proof.
  induction fuel as [|fuel IH]; intros g g' d d'; [discriminate|].
  cbn [Game.player_plays_loop].
  destruct (Hand.value (Game.player_hand g)) as [player_value is_soft]
    eqn:Hvalue.
  destruct (Hand.cards (Game.dealer_hand g)) as [|upcard others];
    [discriminate|].
  destruct (should_hit BasicStrategy player_value is_soft (Card.value upcard))
    eqn:Hhit; [|discriminate].
  unfold bind.
  destruct (Deck.draw d) as [c d1|e1 d1|]; try discriminate.
  destruct (Z.gtb_spec
              (fst (Hand.value (Game.player_hand (Game.hit_player g c))))
              21) as [Hbust|Hfit]; [|apply IH].
  intros H. inversion H; subst g' d'.
  cbn [Game.hit_player Game.player_hand] in *.
  cbn [should_hit BasicStrategy] in Hhit.
  destruct is_soft.
  - pose proof (soft_hit_fits (Game.player_hand g) c) as Hsoft.
    rewrite Hvalue in Hsoft. specialize (Hsoft eq_refl). lia.
  - apply Z.ltb_lt in Hhit.
    apply (bust_after_hit _ _ 16); [rewrite Hvalue; cbn [fst]; lia|].
    exact Hbust.
Qed.

(** X21. With [BasicStrategy] a player who busts does so on 22 to 26: the
    strategy hits a hard hand on 16 at most, and a hit on a soft hand does
    not bust. *)
Theorem BasicStrategy_busts_on (g g' : Game.t) (d d' : Deck.t) :
  Game.player_plays BasicStrategy g d = Return (false, g') d' ->
  22 <= fst (Hand.value (Game.player_hand g')) <= 26.
Proof.
  intros Hplay.
  pose proof (player_plays_loop_return _ _ _ _ _ _ _ Hplay)
    as (_ & Hfalse & _).
  pose proof (basic_player_bust_bound _ _ _ _ _ Hplay) as Hmax.
  specialize (Hfalse eq_refl). lia.
Qed.

End BasicStrategyFacts.

(** Sixteen against a ten: the hit draws the king. *)
Lemma BasicStrategy_busts_on_run :
  Game.player_plays BasicStrategy sixteen_game bust_shoe_dealt =
  Return (false, bust_game) shoe_left /\
  22 <= fst (Hand.value (Game.player_hand bust_game)) <= 26.
Proof.
  assert (Hplay : Game.player_plays BasicStrategy sixteen_game
                    bust_shoe_dealt = Return (false, bust_game) shoe_left)
    by (vm_compute; reflexivity).
  split; [exact Hplay|].
  exact (@BasicStrategy_busts_on CutSource sixteen_game bust_game
           bust_shoe_dealt shoe_left Hplay).
Defined.
